(** * PiDNG core: a shallow embedding of [src/pidng/core.py]

    The converter classes of [core.py] ([DNGBASE], [CAM2DNG], [RPICAM2DNG])
    are embedded as Rocq functions.  Python exceptions are an error result,
    the attributes of [self] a record, warnings and files a world record,
    numpy arrays a dtype, a shape and the elements in C order. *)

From Stdlib Require Import ZArith List Lia Bool.
From stdpp Require Import base numbers list strings gmap.

Local Open Scope Z_scope.

(** ** Python results *)

(** The exceptions [core.py] and numpy raise on the paths modelled here.
    [Raised] stands for whatever a callback or an imported module raises. *)
Inductive exn : Type :=
| Exception (msg : string)
| TypeError (msg : string)
| ValueError (msg : string)
| AttributeError (msg : string)
| IndexError (msg : string)
| KeyError (key : Z)
| UnboundLocalError (var : string)
| Raised (kind msg : string).

Inductive result (A : Type) : Type :=
| Ok (a : A)
| Raise (e : exn).
Arguments Ok {A} a.
Arguments Raise {A} e.

#[global] Instance result_ret : MRet result := fun A a => Ok a.

#[global] Instance result_bind : MBind result := fun A B k r =>
  match r with
  | Ok a => k a
  | Raise e => Raise e
  end.

(** ** numpy arrays *)

(** The integer dtypes.  Floating-point arrays are outside the model. *)
Inductive dtype : Type :=
| uint8 | uint16 | uint32 | uint64
| int8 | int16 | int32 | int64.

#[global] Instance dtype_eq_dec : EqDecision dtype.
Proof. solve_decision. Defined.

Definition itemsize (d : dtype) : Z :=
  match d with
  | uint8 | int8 => 1
  | uint16 | int16 => 2
  | uint32 | int32 => 4
  | uint64 | int64 => 8
  end.

Definition is_signed (d : dtype) : bool :=
  match d with
  | int8 | int16 | int32 | int64 => true
  | _ => false
  end.

Definition dtype_min (d : dtype) : Z :=
  if is_signed d then - 2 ^ (8 * itemsize d - 1) else 0.

Definition dtype_max (d : dtype) : Z :=
  if is_signed d then 2 ^ (8 * itemsize d - 1) - 1 else 2 ^ (8 * itemsize d) - 1.

Definition in_dtype (d : dtype) (v : Z) : Prop :=
  dtype_min d <= v <= dtype_max d.

(** C cast of an integer to dtype [d]: reduction modulo [2^(8*itemsize)],
    read back as two's complement for the signed dtypes. *)
Definition cast (d : dtype) (v : Z) : Z :=
  let m := 2 ^ (8 * itemsize d) in
  let u := v mod m in
  if is_signed d && (2 ^ (8 * itemsize d - 1) <=? u) then u - m else u.

(** [shape] is the tuple of dimensions, [data] the elements in C order. *)
Record ndarray : Type := mk_ndarray {
  nd_dtype : dtype;
  shape : list Z;
  data : list Z
}.

(** [a.size] *)
Definition nd_size (a : ndarray) : Z := Z.of_nat (length (data a)).

(** [a.astype(d)] *)
Definition astype (d : dtype) (a : ndarray) : ndarray :=
  mk_ndarray d (shape a) (map (cast d) (data a)).

(** Byte order of the machine [tobytes] runs on. *)
Inductive byteorder : Type := LittleEndian | BigEndian.

(** The [n] low bytes of [v], least significant first. *)
Fixpoint le_bytes (n : nat) (v : Z) : list Z :=
  match n with
  | O => []
  | S k => v mod 256 :: le_bytes k (v / 256)
  end.

Definition item_bytes (bo : byteorder) (d : dtype) (v : Z) : list Z :=
  let bs := le_bytes (Z.to_nat (itemsize d)) (v mod 2 ^ (8 * itemsize d)) in
  match bo with
  | LittleEndian => bs
  | BigEndian => rev bs
  end.

(** [a.tobytes()]: the elements in C order, each in machine representation. *)
Definition tobytes (bo : byteorder) (a : ndarray) : list Z :=
  flat_map (item_bytes bo (nd_dtype a)) (data a).

(** What a Python callback can hand back. *)
Inductive pyobj : Type :=
| PyArray (a : ndarray)
| PyNone
| PyOther (repr : string).

(** ** Tags *)

(** The members of [Tag] that [core.py] names; every other member of the
    catalogue is [OtherTag] with its TIFF code. *)
Inductive Tag : Type :=
| ImageWidth | ImageLength | BitsPerSample
| TileOffsets | NewSubfileType | TileByteCounts | Compression
| Software | DNGVersion | DNGBackwardVersion
| OtherTag (code : Z).

#[global] Instance Tag_eq_dec : EqDecision Tag.
Proof. solve_decision. Defined.

Definition Tag_encode (t : Tag) : nat + Z :=
  match t with
  | ImageWidth => inl 0%nat
  | ImageLength => inl 1%nat
  | BitsPerSample => inl 2%nat
  | TileOffsets => inl 3%nat
  | NewSubfileType => inl 4%nat
  | TileByteCounts => inl 5%nat
  | Compression => inl 6%nat
  | Software => inl 7%nat
  | DNGVersion => inl 8%nat
  | DNGBackwardVersion => inl 9%nat
  | OtherTag c => inr c
  end.

Definition Tag_decode (x : nat + Z) : Tag :=
  match x with
  | inl 0%nat => ImageWidth
  | inl 1%nat => ImageLength
  | inl 2%nat => BitsPerSample
  | inl 3%nat => TileOffsets
  | inl 4%nat => NewSubfileType
  | inl 5%nat => TileByteCounts
  | inl 6%nat => Compression
  | inl 7%nat => Software
  | inl 8%nat => DNGVersion
  | inl _ => DNGBackwardVersion
  | inr c => OtherTag c
  end.

#[global] Instance Tag_countable : Countable Tag.
Proof.
  apply (inj_countable' Tag_encode Tag_decode).
  intros []; reflexivity.
Defined.

(** Modelled from the spec: [dngTag] of [dng.py], which is not among the
    sources.  The spec's Tag is an id with an "ordered sequence of raw
    values"; [core.py] reads the sequence as [rawValue].  A text value is
    held as its character codes; the type column of the catalogue is left
    out. *)
Record dngTag : Type := mk_dngTag {
  TagId : Tag;
  rawValue : list Z
}.

Definition text_codes (s : string) : list Z :=
  map (fun c => Z.of_nat (Ascii.nat_of_ascii c)) (String.list_ascii_of_string s).

(** Modelled from the spec: [DNGTags] of [dng.py], which is not among the
    sources: the tag set, a dictionary from tag to entry.  [get] answers the
    entry or [None]; [list] enumerates the entries (in key order here, in
    insertion order in Python; the container orders them by id anyway). *)
Abbreviation DNGTags := (gmap Tag dngTag).

Definition get (tags : DNGTags) (t : Tag) : option dngTag := tags !! t.

Definition tags_list (tags : DNGTags) : list dngTag := snd <$> map_to_list tags.

(** [tags.get(t).rawValue[0]]: [get] answering [None] has no attribute
    [rawValue], an empty sequence has no element 0. *)
Definition rawValue0 (tags : DNGTags) (t : Tag) : result Z :=
  match get tags t with
  | None => Raise (AttributeError "'NoneType' object has no attribute 'rawValue'")
  | Some tag =>
      match rawValue tag with
      | [] => Raise (IndexError "list index out of range")
      | v :: _ => Ok v
      end
  end.

(** ** Two-dimensional uint16 arithmetic

    The unpacker works on a two-dimensional array through column slices
    [a[:, start::step]].  Such an array is its shape and its rows; every
    operation below is the numpy operation of the same name on uint16
    operands, shape check included. *)

Record arr2 : Type := mk_arr2 {
  nrows : Z;
  ncols : Z;
  rows : list (list Z)
}.

(** [[start::step]] on a list: the elements at [start], [start+step], ... *)
Fixpoint every {A : Type} (skip step : nat) (l : list A) : list A :=
  match l with
  | [] => []
  | x :: t =>
      match skip with
      | O => x :: every (step - 1) step t
      | S k => every k step t
      end
  end.

(** Assignment through [[start::step]]: the selected places take the
    values of [vs] in turn. *)
Fixpoint put_every {A : Type} (skip step : nat) (vs l : list A) : list A :=
  match l with
  | [] => []
  | x :: t =>
      match skip with
      | O =>
          match vs with
          | v :: vs' => v :: put_every (step - 1) step vs' t
          | [] => x :: t
          end
      | S k => x :: put_every k step vs t
      end
  end.

(** [np.delete] of the places [[start::step]]. *)
Fixpoint drop_every {A : Type} (skip step : nat) (l : list A) : list A :=
  match l with
  | [] => []
  | x :: t =>
      match skip with
      | O => drop_every (step - 1) step t
      | S k => x :: drop_every k step t
      end
  end.

(** Length of [range(start, n, step)], the width of a column slice. *)
Definition slice_len (start step n : Z) : Z :=
  if n <=? start then 0 else (n - start + step - 1) / step.

(** [a[:, start::step]] *)
Definition cols (start step : Z) (a : arr2) : arr2 :=
  mk_arr2 (nrows a) (slice_len start step (ncols a))
    (map (every (Z.to_nat start) (Z.to_nat step)) (rows a)).

(** Broadcasting a row of one column to [n] columns. *)
Definition broadcast_row (n : Z) (r : list Z) : list Z :=
  match r with
  | [x] => repeat x (Z.to_nat n)
  | _ => r
  end.

Definition broadcast_error : exn :=
  ValueError "operands could not be broadcast together".

(** A binary ufunc on arrays of equal height: the widths agree or one of
    them is 1. *)
Definition ufunc2 (f : Z -> Z -> Z) (a b : arr2) : result arr2 :=
  if bool_decide (ncols a = ncols b \/ ncols b = 1) then
    Ok (mk_arr2 (nrows a) (ncols a)
          (zip_with (fun ra rb => zip_with f ra (broadcast_row (ncols a) rb))
             (rows a) (rows b)))
  else if bool_decide (ncols a = 1) then
    Ok (mk_arr2 (nrows a) (ncols b)
          (zip_with (fun ra rb => zip_with f (broadcast_row (ncols b) ra) rb)
             (rows a) (rows b)))
  else Raise broadcast_error.

(** A ufunc with a Python integer as second operand. *)
Definition ufunc1 (f : Z -> Z) (a : arr2) : arr2 :=
  mk_arr2 (nrows a) (ncols a) (map (map f) (rows a)).

Definition u16 (v : Z) : Z := v mod 2 ^ 16.

Definition lshift (k : Z) (a : arr2) : arr2 := ufunc1 (fun v => u16 (Z.shiftl v k)) a.
Definition rshift (k : Z) (a : arr2) : arr2 := ufunc1 (fun v => Z.shiftr v k) a.
Definition and_ (m : Z) (a : arr2) : arr2 := ufunc1 (fun v => Z.land v m) a.
Definition add (a b : arr2) : result arr2 := ufunc2 (fun x y => u16 (x + y)) a b.

(** [a[:, start::step] = v]: [v] is broadcast to the width of the slice. *)
Definition set_cols (start step : Z) (a v : arr2) : result arr2 :=
  let w := slice_len start step (ncols a) in
  if bool_decide (ncols v = w \/ ncols v = 1) then
    Ok (mk_arr2 (nrows a) (ncols a)
          (zip_with
             (fun ra rv => put_every (Z.to_nat start) (Z.to_nat step) (broadcast_row w rv) ra)
             (rows a) (rows v)))
  else Raise broadcast_error.

(** [a[:, start::step] |= v] *)
Definition ior_cols (start step : Z) (a v : arr2) : result arr2 :=
  let s := cols start step a in
  if bool_decide (ncols v = ncols s \/ ncols v = 1) then
    r ← ufunc2 Z.lor s v; set_cols start step a r
  else Raise broadcast_error.

(** [np.delete(a, np.s_[start::step], 1)] *)
Definition delete_cols (start step : Z) (a : arr2) : arr2 :=
  mk_arr2 (nrows a) (ncols a - slice_len start step (ncols a))
    (map (drop_every (Z.to_nat start) (Z.to_nat step)) (rows a)).

(** [np.zeros((r, c), dtype=np.uint16)] *)
Definition zeros (r c : Z) : arr2 :=
  mk_arr2 r c (repeat (repeat 0 (Z.to_nat c)) (Z.to_nat r)).

(** The rows of a flat buffer read as [r] rows of [c] columns. *)
Fixpoint chunks {A : Type} (r c : nat) (l : list A) : list (list A) :=
  match r with
  | O => []
  | S k => take c l :: chunks k c (drop c l)
  end.

(** [a.reshape((r, c))] *)
Definition reshape (rc : Z * Z) (a : ndarray) : result arr2 :=
  if nd_size a =? rc.1 * rc.2 then
    Ok (mk_arr2 rc.1 rc.2 (chunks (Z.to_nat rc.1) (Z.to_nat rc.2) (data a)))
  else Raise (ValueError "cannot reshape array into the requested shape").

(** [a[:r, :c]] for [r], [c] not negative. *)
Definition crop (rc : Z * Z) (a : arr2) : arr2 :=
  mk_arr2 (Z.min rc.1 (nrows a)) (Z.min rc.2 (ncols a))
    (map (take (Z.to_nat rc.2)) (take (Z.to_nat rc.1) (rows a))).

(** [a.astype(np.uint16)] of a two-dimensional array. *)
Definition astype16 (a : arr2) : arr2 := ufunc1 (cast uint16) a.

Definition to_ndarray (d : dtype) (a : arr2) : ndarray :=
  mk_ndarray d [nrows a; ncols a] (concat (rows a)).

(** ** The world outside: warnings and files *)

Record World : Type := mk_World {
  files : gmap string (list Z);
  warnings : list string
}.

(** [warnings.warn(msg)]: the warning is issued, recorded here, and
    execution goes on (no filter turns warnings into errors). *)
Definition warn (msg : string) (w : World) : World :=
  mk_World (files w) (warnings w ++ [msg]).

(** [open(p, "wb")] creates the file or truncates it. *)
Definition open_wb (p : string) (w : World) : World :=
  mk_World (<[p := []]> (files w)) (warnings w).

(** [outfile.write(buf)] on the file opened at [p]. *)
Definition file_write (p : string) (buf : list Z) (w : World) : World :=
  mk_World (<[p := default [] (files w !! p) ++ buf]> (files w)) (warnings w).

(** [s.endswith(suffix)] *)
Definition endswith (s suffix : string) : bool :=
  let n := String.length s in
  let m := String.length suffix in
  (m <=? n)%nat && String.eqb (String.substring (n - m) m s) suffix.

(** ** The imported modules

    [dng.py], [defs.py], [packing.py], [camdefs.py] and the [ljpegCompress]
    extension are not among the sources; [os.path.join] is the platform's.
    What [core.py] takes from them is a parameter of the embedding. *)

Record dngIFD : Type := mk_dngIFD {
  ifd_tags : list dngTag
}.

(** The attributes of a [DNG] object that [__process__] touches. *)
Record DNG : Type := mk_DNG {
  IFDs : list dngIFD;
  ImageDataStrips : list (list Z);
  StripOffsets : list (Z * Z)
}.

Record Imports : Type := mk_Imports {
  (* packing.py *)
  pack10 : ndarray -> result ndarray;
  pack12 : ndarray -> result ndarray;
  pack14 : ndarray -> result ndarray;
  (* ljpegCompress.pack16tolj(frame, width, height, bpp, 0, 0, 0, "", 6) *)
  pack16tolj : ndarray -> Z -> Z -> Z -> result (list Z);
  (* defs.py *)
  Compression_LJ92 : Z;
  Compression_Uncompressed : Z;
  DNGVersion_V1_4 : list Z;
  DNGVersion_V1_0 : list Z;
  (* dng.py: DNG.dataLen answers the total length and fills StripOffsets;
     DNG.setBuffer and DNG.write fill a buffer of that length *)
  dataLen : DNG -> result (Z * list (Z * Z));
  write : DNG -> Z -> result (list Z);
  (* os.path.join *)
  path_join : string -> string -> string;
  (* sys.byteorder *)
  native : byteorder
}.

(** Modelled from the spec: [BaseCameraModel] of [camdefs.py], which is not
    among the sources; [core.py] reads its [tags] only. *)
Record BaseCameraModel : Type := mk_BaseCameraModel {
  model_tags : DNGTags
}.

(** What [convert] returns: the buffer, or the path it wrote the buffer to. *)
Inductive converted : Type :=
| Buffer (buf : list Z)
| OutputDNG (outputDNG : string).

(** ** [class DNGBASE] *)

Module DNGBASE.

(** The attributes [__init__] sets to [None]. *)
Record self : Type := mk_self {
  compress : option bool;
  path : option string;
  tags : option DNGTags;
  filter : option (ndarray -> result pyobj)
}.

Definition __init__ : self := mk_self None None None None.

(** The two methods the subclasses override; [convert] calls them through
    [self]. *)
Record overridable : Type := mk_overridable {
  data_condition : ndarray -> World -> result unit * World;
  unpack_pixels : ndarray -> result ndarray
}.

Definition __data_condition__ (data : ndarray) (w : World) : result unit * World :=
  if bool_decide (nd_dtype data ≠ uint16) then
    (Raise (Exception "RAW Data is not in correct format. Must be uint16_t Numpy Array. "), w)
  else (Ok tt, w).

(** [not x] for [x] the answer of [tags.get]: [None] is false, an entry is
    an object and true. *)
Definition py_not {A : Type} (o : option A) : bool :=
  match o with None => true | Some _ => false end.

Definition __tags_condition__ (tags : DNGTags) : result unit :=
  if py_not (get tags ImageWidth) then
    Raise (Exception "No width is defined in tags.")
  else if py_not (get tags ImageLength) then
    Raise (Exception "No height is defined in tags.")
  else if py_not (get tags BitsPerSample) then
    Raise (Exception "Bit per pixel is not defined.")
  else Ok tt.

Definition __unpack_pixels__ (data : ndarray) : result ndarray := Ok data.

Definition __filter__ (rawFrame : ndarray) (filter : option (ndarray -> result pyobj))
  : result ndarray :=
  match filter with
  | None => Ok rawFrame
  | Some f =>
      processed ← f rawFrame;
      match processed with
      | PyArray p =>
          if bool_decide (shape p ≠ shape rawFrame) then
            Raise (ValueError "return array does not have the same shape!")
          else if bool_decide (nd_dtype p ≠ uint16) then
            Raise (ValueError "array data type is invalid!")
          else Ok p
      | _ => Raise (TypeError "return value is not a valid numpy array!")
      end
  end.

Section Process.
Context (M : Imports).

(** Lines 56-70 of [__process__]: the strip, or [None] when no branch has
    bound [tile]. *)
Definition strip (rawFrame : ndarray) (width length bpp : Z) (compress : bool)
  : result (option (list Z)) :=
  if compress then
    tile ← pack16tolj M rawFrame (width * 2) (Z.quot length 2) bpp; Ok (Some tile)
  else if bpp =? 8 then Ok (Some (tobytes (native M) (astype uint8 rawFrame)))
  else if bpp =? 10 then a ← pack10 M rawFrame; Ok (Some (tobytes (native M) a))
  else if bpp =? 12 then a ← pack12 M rawFrame; Ok (Some (tobytes (native M) a))
  else if bpp =? 14 then a ← pack14 M rawFrame; Ok (Some (tobytes (native M) a))
  else if bpp =? 16 then Ok (Some (tobytes (native M) rawFrame))
  else Ok None.

(** Reading a local variable. *)
Definition local {A : Type} (name : string) (v : option A) : result A :=
  match v with
  | Some a => Ok a
  | None => Raise (UnboundLocalError name)
  end.

(** [mainTagStripOffset.setValue(v)]: the tag is the first one of the main
    IFD, and the IFD the container holds is that same object. *)
Definition set_first_value (v : list Z) (ifd : dngIFD) : dngIFD :=
  match ifd_tags ifd with
  | [] => ifd
  | t :: ts => mk_dngIFD (mk_dngTag (TagId t) v :: ts)
  end.

Definition __process__ (rawFrame : ndarray) (tags : DNGTags) (compress : bool)
  : result (list Z) :=
  width ← rawValue0 tags ImageWidth;
  length ← rawValue0 tags ImageLength;
  bpp ← rawValue0 tags BitsPerSample;
  let compression_scheme :=
    if compress then Compression_LJ92 M else Compression_Uncompressed M in
  tile ← strip rawFrame width length bpp compress;
  let dngTemplate := mk_DNG [] [] [] in
  tile ← local "tile" tile;
  let strips := ImageDataStrips dngTemplate ++ [tile] in
  let mainTagStripOffset := mk_dngTag TileOffsets (map (fun _ => 0) strips) in
  let mainIFD := mk_dngIFD
    ([ mainTagStripOffset;
       mk_dngTag NewSubfileType [0];
       mk_dngTag TileByteCounts (map (fun t => Z.of_nat (List.length t)) strips);
       mk_dngTag Compression [compression_scheme];
       mk_dngTag Software (text_codes "PiDNG");
       mk_dngTag DNGVersion (DNGVersion_V1_4 M);
       mk_dngTag DNGBackwardVersion (DNGVersion_V1_0 M) ]
     ++ tags_list tags) in
  let dngTemplate := mk_DNG (IFDs dngTemplate ++ [mainIFD]) strips (StripOffsets dngTemplate) in
  '(totalLength, offsets) ← dataLen M dngTemplate;
  let mainIFD := set_first_value (map snd offsets) mainIFD in
  let dngTemplate := mk_DNG [mainIFD] strips offsets in
  write M dngTemplate totalLength.

(** Lines 120-122 of [convert]: from the image to the buffer. *)
Definition buffer_of (cls : overridable) (s : self) (tgs : DNGTags) (image : ndarray)
  : result (list Z) :=
  unpacked ← unpack_pixels cls image;
  filtered ← __filter__ unpacked (filter s);
  __process__ filtered tgs (default false (compress s)).

(** [convert], with the methods [self] resolves to.  The world records
    what the call leaves behind. *)
Definition convert (cls : overridable) (s : self) (image : ndarray) (filename : string)
    (w : World) : result converted * World :=
  match tags s with
  | None => (Raise (Exception "Options have not been set!"), w)
  | Some tgs =>
      match data_condition cls image w with
      | (Raise e, w) => (Raise e, w)
      | (Ok _, w) =>
          match buffer_of cls s tgs image with
          | Raise e => (Raise e, w)
          | Ok buf =>
              let file_output := (0 <? String.length filename)%nat in
              if file_output then
                let filename :=
                  if negb (endswith filename ".dng") then filename +:+ ".dng" else filename in
                match path s with
                | None => (Raise (TypeError "expected str, bytes or os.PathLike object, not NoneType"), w)
                | Some pth =>
                    let outputDNG := path_join M pth filename in
                    let w := open_wb outputDNG w in
                    let w := file_write outputDNG buf w in
                    (Ok (OutputDNG outputDNG), w)
                end
              else (Ok (Buffer buf), w)
          end
      end
  end.

End Process.

(** [options]: the outcome and the object afterwards.  The three
    assignments run only when the check has returned. *)
Definition options (tgs : DNGTags) (pth : string) (cmp : bool) (s : self)
  : result unit * self :=
  match __tags_condition__ tgs with
  | Raise e => (Raise e, s)
  | Ok _ => (Ok tt, mk_self (Some cmp) (Some pth) (Some tgs) (filter s))
  end.

(** The methods of [DNGBASE] itself (and of [RAW2DNG], which adds none). *)
Definition methods : overridable :=
  mk_overridable __data_condition__ __unpack_pixels__.

End DNGBASE.

(** ** [class CAM2DNG(DNGBASE)] *)

Module CAM2DNG.

Record self : Type := mk_self {
  base : DNGBASE.self;
  model : BaseCameraModel
}.

Definition __init__ (model : BaseCameraModel) : self :=
  mk_self DNGBASE.__init__ model.

Definition options (pth : string) (cmp : bool) (s : self) : result unit * self :=
  match DNGBASE.__tags_condition__ (model_tags (model s)) with
  | Raise e => (Raise e, s)
  | Ok _ =>
      (Ok tt,
       mk_self
         (DNGBASE.mk_self (Some cmp) (Some pth) (Some (model_tags (model s)))
            (DNGBASE.filter (base s)))
         (model s))
  end.

End CAM2DNG.

(** ** [class RPICAM2DNG(CAM2DNG)] *)

Module RPICAM2DNG.

Definition __data_condition__ (data : ndarray) (w : World) : result unit * World :=
  if bool_decide (nd_dtype data ≠ uint8) then
    (Ok tt, warn "RAW Data is not in correct format. Already unpacked? " w)
  else (Ok tt, w).

(** Lines 168-180: [ver = 6], then the chain of comparisons. *)
Definition version (height : Z) : Z :=
  let ver := 6 in
  if height =? 1080 then 4
  else if height =? 1520 then 5
  else if height =? 3040 then 6
  else if height =? 760 then 3
  else if height =? 2464 then 2
  else if height =? 1944 then 1
  else ver.

(** Lines 182-190: the dictionary of (reshape, crop) and its lookup. *)
Definition geometry (ver : Z) : result ((Z * Z) * (Z * Z)) :=
  match ver with
  | 1 => Ok ((1952, 3264), (1944, 3240))
  | 2 => Ok ((2480, 4128), (2464, 4100))
  | 3 => Ok ((768, 1280), (760, 1265))
  | 4 => Ok ((1080, 3072), (1080, 3042))
  | 5 => Ok ((1520, 3072), (1520, 3042))
  | 6 => Ok ((3040, 6112), (3040, 6084))
  | _ => Raise (KeyError ver)
  end.

(** [for x in xs: s = body(x, s)] *)
Fixpoint for_in {A S : Type} (xs : list A) (body : A -> S -> result S) (s : S)
  : result S :=
  match xs with
  | [] => Ok s
  | x :: xs' => s' ← body x s; for_in xs' body s'
  end.

(** Lines 194-197, on the cropped array. *)
Definition unpack_legacy (data : arr2) : result arr2 :=
  let data := lshift 2 (astype16 data) in
  data ← for_in [0; 1; 2; 3]
    (fun byte data =>
       ior_cols byte 5 data (and_ 3 (rshift ((byte + 1) * 2) (cols 4 5 data))))
    data;
  Ok (delete_cols 4 5 data).

(** Lines 199-204, on the cropped array.  [int(shape[1] / 3 * 2)] goes
    through a float; for the widths of the table, all multiples of 3, the
    quotient is exact and the result is [2 * shape[1] / 3]. *)
Definition unpack_modern (data : arr2) : result arr2 :=
  let data := astype16 data in
  let shape := (nrows data, ncols data) in
  let unpacked_data := zeros shape.1 (2 * shape.2 / 3) in
  even ← add (lshift 4 (cols 0 3 data)) (and_ 15 (cols 2 3 data));
  unpacked_data ← set_cols 0 2 unpacked_data even;
  odd ← add (lshift 4 (cols 1 3 data)) (and_ 15 (rshift 4 (cols 2 3 data)));
  unpacked_data ← set_cols 1 2 unpacked_data odd;
  Ok unpacked_data.

(** Lines 191-205 for a given version and geometry. *)
Definition unpack_with (ver : Z) (reshape_ crop_ : Z * Z) (data : ndarray)
  : result ndarray :=
  data ← reshape reshape_ data;
  let data := crop crop_ data in
  data ← (if ver <? 4 then unpack_legacy data else unpack_modern data);
  Ok (to_ndarray uint16 data).

Definition __unpack_pixels__ (model : BaseCameraModel) (data : ndarray)
  : result ndarray :=
  if bool_decide (nd_dtype data ≠ uint8) then Ok data
  else
    height ← rawValue0 (model_tags model) ImageLength;
    let ver := version height in
    '(reshape_, crop_) ← geometry ver;
    unpack_with ver reshape_ crop_ data.

Definition methods (model : BaseCameraModel) : DNGBASE.overridable :=
  DNGBASE.mk_overridable __data_condition__ (__unpack_pixels__ model).

(** [convert] is inherited: [DNGBASE.convert] with the methods above. *)
Definition convert (M : Imports) (s : CAM2DNG.self) (image : ndarray)
    (filename : string) (w : World) : result converted * World :=
  DNGBASE.convert M (methods (CAM2DNG.model s)) (CAM2DNG.base s) image filename w.

End RPICAM2DNG.

(** ** The two schemes on one row

    One sample of a legacy group: a data column already shifted left by 2,
    or-ed with the two bits cut from [fifth] by a right shift of
    [(offset+1)*2] and a mask of 3. *)
Definition legacy_sample (offset : Z) (shifted fifth : Z) : Z :=
  Z.lor shifted (Z.land (Z.shiftr fifth ((offset + 1) * 2)) 3).

(** The legacy scheme as the specification words it: only the four data
    columns are shifted, and the slice is cut from the fifth column of the
    cropped buffer, the byte [c4] itself. *)
Fixpoint claimed_legacy_row (l : list Z) : list Z :=
  match l with
  | c0 :: c1 :: c2 :: c3 :: c4 :: rest =>
      legacy_sample 0 (Z.shiftl c0 2) c4
      :: legacy_sample 1 (Z.shiftl c1 2) c4
      :: legacy_sample 2 (Z.shiftl c2 2) c4
      :: legacy_sample 3 (Z.shiftl c3 2) c4
      :: claimed_legacy_row rest
  | _ => []
  end.

(** The legacy scheme with the wording amended: all five columns are
    shifted left by 2, the fifth included, and the slice is cut from the
    shifted fifth column [c4 << 2]. *)
Fixpoint legacy_row (l : list Z) : list Z :=
  match l with
  | c0 :: c1 :: c2 :: c3 :: c4 :: rest =>
      let fifth := Z.shiftl c4 2 in
      legacy_sample 0 (Z.shiftl c0 2) fifth
      :: legacy_sample 1 (Z.shiftl c1 2) fifth
      :: legacy_sample 2 (Z.shiftl c2 2) fifth
      :: legacy_sample 3 (Z.shiftl c3 2) fifth
      :: legacy_row rest
  | _ => []
  end.

(** The modern scheme as the specification words it: a triplet of bytes
    gives an even and an odd sample. *)
Definition modern_even (b0 b2 : Z) : Z := Z.lor (Z.shiftl b0 4) (Z.land b2 15).
Definition modern_odd (b1 b2 : Z) : Z :=
  Z.lor (Z.shiftl b1 4) (Z.land (Z.shiftr b2 4) 15).

Fixpoint modern_row (l : list Z) : list Z :=
  match l with
  | b0 :: b1 :: b2 :: rest => modern_even b0 b2 :: modern_odd b1 b2 :: modern_row rest
  | _ => []
  end.

(** The geometries of the table by declared height and scheme. *)
Definition legacy_geometries : list (Z * ((Z * Z) * (Z * Z))) :=
  [ (1944, ((1952, 3264), (1944, 3240)));
    (2464, ((2480, 4128), (2464, 4100)));
    (760, ((768, 1280), (760, 1265))) ].

Definition modern_geometries : list (Z * ((Z * Z) * (Z * Z))) :=
  [ (1080, ((1080, 3072), (1080, 3042)));
    (1520, ((1520, 3072), (1520, 3042)));
    (3040, ((3040, 6112), (3040, 6084))) ].

Definition known_heights : list Z := [1944; 2464; 760; 1080; 1520; 3040].

(** The cropped rows of a buffer: [data.reshape(R, C)[:cr, :cc]]. *)
Definition cropped_rows (RC crop_ : Z * Z) (l : list Z) : list (list Z) :=
  map (take (Z.to_nat crop_.2))
    (take (Z.to_nat crop_.1) (chunks (Z.to_nat RC.1) (Z.to_nat RC.2) l)).

(** ** Row-level readings of the unpacker, used in the proofs *)

(** One turn of the loop of line 196 on one row: slot [k] of every group
    takes the bits the fifth slot holds at [s]. *)
Definition legacy_step (k : nat) (s : Z) (r : list Z) : list Z :=
  put_every k 5
    (zip_with Z.lor (every k 5 r)
       (map (fun v => Z.land v 3) (map (fun v => Z.shiftr v s) (every 4 5 r))))
    r.

(** Lines 194-197 on one row of bytes. *)
Definition legacy_code_row (r : list Z) : list Z :=
  drop_every 4 5
    (legacy_step 3 8 (legacy_step 2 6 (legacy_step 1 4 (legacy_step 0 2
       (map (fun v => u16 (Z.shiftl v 2)) (map (cast uint16) r)))))).

(** An array all of whose rows have [w] columns. *)
Definition rect (w : Z) (a : arr2) : Prop :=
  ncols a = w /\ Forall (fun r => length r = Z.to_nat w) (rows a).

(** Lines 201-203 on one row of bytes; [z] is the row of [np.zeros]. *)
Definition modern_code_row (z r : list Z) : list Z :=
  let r' := map (cast uint16) r in
  put_every 1 2
    (zip_with (fun x y => u16 (x + y))
       (map (fun v => u16 (Z.shiftl v 4)) (every 1 3 r'))
       (map (fun v => Z.land v 15) (map (fun v => Z.shiftr v 4) (every 2 3 r'))))
    (put_every 0 2
       (zip_with (fun x y => u16 (x + y))
          (map (fun v => u16 (Z.shiftl v 4)) (every 0 3 r'))
          (map (fun v => Z.land v 15) (every 2 3 r')))
       z).

(** The two bytes of a 16-bit sample in byte order [bo]. *)
Definition sample_bytes16 (bo : byteorder) (v : Z) : list Z :=
  match bo with
  | LittleEndian => [v mod 256; v / 256]
  | BigEndian => [v / 256; v mod 256]
  end.

(** The samples a strip of depth 16 holds, read back from its bytes. *)
Fixpoint from_bytes16 (bo : byteorder) (bs : list Z) : list Z :=
  match bs with
  | b0 :: b1 :: rest =>
      match bo with
      | LittleEndian => b0 + 256 * b1
      | BigEndian => b1 + 256 * b0
      end :: from_bytes16 bo rest
  | _ => []
  end.

(** ** Vocabulary of the statements *)

(** The numeric range of an array is that of its dtype. *)
Definition same_range (a b : ndarray) : Prop :=
  dtype_min (nd_dtype a) = dtype_min (nd_dtype b) /\
  dtype_max (nd_dtype a) = dtype_max (nd_dtype b).

(** The message of [__tags_condition__] for each mandatory tag. *)
Definition mandatory : list (Tag * string) :=
  [ (ImageWidth, "No width is defined in tags.");
    (ImageLength, "No height is defined in tags.");
    (BitsPerSample, "Bit per pixel is not defined.") ].


(** The name [convert] writes to. *)
Definition output_name (M : Imports) (pth filename : string) : string :=
  path_join M pth (if endswith filename ".dng" then filename else filename +:+ ".dng").

(** ** Test data *)

Definition tags_of (l : list (Tag * list Z)) : DNGTags :=
  list_to_map (map (fun '(t, v) => (t, mk_dngTag t v)) l).

Definition model_of_height (h : Z) : BaseCameraModel :=
  mk_BaseCameraModel
    (tags_of [(ImageWidth, [1012]); (ImageLength, [h]); (BitsPerSample, [10])]).

(** A buffer of [n] bytes counting 0, 1, ..., 255, 0, ... *)
Definition ramp (n : nat) : list Z := map (fun i => Z.of_nat i mod 256) (seq 0 n).

Definition packed_ramp (n : Z) : ndarray := mk_ndarray uint8 [n] (ramp (Z.to_nat n)).

Definition small_packed (r c : Z) (l : list Z) : ndarray :=
  mk_ndarray uint8 [r * c] l.

(** A buffer of the packed size of the 760-row sensor: the first group
    holds zero data bytes and the fifth byte [228 = 0b11100100], whose bit
    pairs are 0, 1, 2, 3 from the lowest; every other byte is zero. *)
Definition slice_probe : ndarray :=
  mk_ndarray uint8 [983040] ([0; 0; 0; 0; 228] ++ repeat 0 (Z.to_nat 983035)).

(** Modelled from the spec: the container of [dng.py], which is not among
    the sources, reduced to its layout: a fixed header, the directory of
    each IFD ([2 + entries * 12 + 4] bytes), then the strips, every region
    starting where the one before ends.  The bytes of header and directory
    are left zero and out-of-line value blocks are left out. *)
Definition header_len : Z := 8.

Definition directory_size (ifd : dngIFD) : Z :=
  2 + Z.of_nat (length (ifd_tags ifd)) * 12 + 4.

Definition strips_start (d : DNG) : Z :=
  header_len + fold_right Z.add 0 (map directory_size (IFDs d)).

Fixpoint strip_offsets (i at_ : Z) (strips : list (list Z)) : list (Z * Z) :=
  match strips with
  | [] => []
  | t :: ts => (i, at_) :: strip_offsets (i + 1) (at_ + Z.of_nat (length t)) ts
  end.

Definition layout_dataLen (d : DNG) : result (Z * list (Z * Z)) :=
  Ok (strips_start d + Z.of_nat (length (concat (ImageDataStrips d))),
      strip_offsets 0 (strips_start d) (ImageDataStrips d)).

Definition layout_write (d : DNG) (totalLength : Z) : result (list Z) :=
  Ok (repeat 0 (Z.to_nat (strips_start d)) ++ concat (ImageDataStrips d)).

(** [posixpath.join] of two components. *)
Definition posix_join (a b : string) : string :=
  if String.prefix "/" b then b
  else if String.eqb a "" || endswith a "/" then a +:+ b
  else a +:+ "/" +:+ b.

Definition not_in_sources {A : Type} (what : string) : result A :=
  Raise (Raised "ImportError" what).

(** Imports to run the examples with: the layout above, POSIX paths, a
    little-endian machine, the constants of the DNG format; the packers and
    the compressor raise. *)
Definition sample_imports : Imports :=
  mk_Imports
    (fun _ => not_in_sources "pack10") (fun _ => not_in_sources "pack12")
    (fun _ => not_in_sources "pack14") (fun _ _ _ _ => not_in_sources "pack16tolj")
    7 1 [1; 4; 0; 0] [1; 0; 0; 0]
    layout_dataLen layout_write posix_join LittleEndian.

Definition sample_tags : DNGTags :=
  tags_of [(ImageWidth, [2]); (ImageLength, [1]); (BitsPerSample, [16])].

Definition empty_world : World := mk_World ∅ [].

(** A converter after [options(sample_tags, "/tmp")]. *)
Definition sample_converter : DNGBASE.self :=
  (DNGBASE.options sample_tags "/tmp" false DNGBASE.__init__).2.

Definition sample_frame : ndarray := mk_ndarray uint16 [1; 2] [258; 772].

(** A frame of signed samples, and a filter that answers unsigned ones. *)
Definition signed_frame : ndarray := mk_ndarray int16 [1; 2] [-1; 5].

Definition to_unsigned (a : ndarray) : result pyobj := Ok (PyArray (astype uint16 a)).

(** ** [class PICAM2DNG(RPICAM2DNG)] *)

Module PICAM2DNG.

(** [options(compress)]: the check of the model's tags, then the same
    assignments as [CAM2DNG.options] with the empty path. *)
Definition options (cmp : bool) (s : CAM2DNG.self) : result unit * CAM2DNG.self :=
  match DNGBASE.__tags_condition__ (model_tags (CAM2DNG.model s)) with
  | Raise e => (Raise e, s)
  | Ok _ =>
      (Ok tt,
       CAM2DNG.mk_self
         (DNGBASE.mk_self (Some cmp) (Some "") (Some (model_tags (CAM2DNG.model s)))
            (DNGBASE.filter (CAM2DNG.base s)))
         (CAM2DNG.model s))
  end.

End PICAM2DNG.

(** ** Reference packers

    The layouts the two branches of the unpacker reverse, written as
    packers of one row of samples.  They are not in the sources; the round
    trips below are stated against them. *)

(** Four 10-bit samples to five bytes: the high eight bits of each, then
    one byte with the four pairs of low bits, sample 0 lowest. *)
Fixpoint legacy_pack_row (l : list Z) : list Z :=
  match l with
  | s0 :: s1 :: s2 :: s3 :: rest =>
      s0 / 4 :: s1 / 4 :: s2 / 4 :: s3 / 4
      :: s0 mod 4 + 4 * (s1 mod 4) + 16 * (s2 mod 4) + 64 * (s3 mod 4)
      :: legacy_pack_row rest
  | _ => []
  end.

(** Two 12-bit samples to three bytes: the high eight bits of each, then
    one byte with the two low nibbles, the even sample's lowest. *)
Fixpoint modern_pack_row (l : list Z) : list Z :=
  match l with
  | e :: o :: rest =>
      e / 16 :: o / 16 :: e mod 16 + 16 * (o mod 16) :: modern_pack_row rest
  | _ => []
  end.

(** The sensors of the table: declared height, packed size in bytes
    (the product of the reshape), and the resolution the comment beside
    each entry gives ([# 2592x1944] and so on) with the sample depth of
    its scheme. *)
Record sensor : Type := mk_sensor {
  sensor_height : Z;
  packed_bytes : Z;
  sensor_width : Z;
  sample_bits : Z
}.

Definition sensors : list sensor :=
  [ mk_sensor 1944 (1952 * 3264) 2592 10;
    mk_sensor 2464 (2480 * 4128) 3280 10;
    mk_sensor 760 (768 * 1280) 1012 10;
    mk_sensor 1080 (1080 * 3072) 2028 12;
    mk_sensor 1520 (1520 * 3072) 2028 12;
    mk_sensor 3040 (3040 * 6112) 4056 12 ].

(** The reshape the unpacker performs for a declared height: the entry of
    the table for [version height]; the lookup cannot miss. *)
Definition packed_shape (height : Z) : Z * Z :=
  match RPICAM2DNG.geometry (RPICAM2DNG.version height) with
  | Ok (rc, _) => rc
  | Raise _ => (0, 0)
  end.

Definition crop_shape (height : Z) : Z * Z :=
  match RPICAM2DNG.geometry (RPICAM2DNG.version height) with
  | Ok (_, c) => c
  | Raise _ => (0, 0)
  end.

(** The warning of [RPICAM2DNG.__data_condition__]. *)
Definition unpacked_warning : string :=
  "RAW Data is not in correct format. Already unpacked? ".

(** A small cropped array of packed bytes per scheme, for the witnesses. *)
Definition legacy_samples : list (list Z) := [[0; 1; 2; 3]; [1020; 1021; 1022; 1023]].

Definition modern_samples : list (list Z) := [[0; 1; 4094; 4095]; [291; 2748; 15; 240]].

(** A frame of 32-bit samples. *)
Definition wide_frame : ndarray := mk_ndarray uint32 [1; 2] [65536; 7].

(** The branch of the unpacker a declared height selects ([ver < 4] or
    not), as the row function, the packer it reverses, the sample depth,
    and the width of the unpacked frame. *)
Definition scheme_row (height : Z) : list Z -> list Z :=
  if RPICAM2DNG.version height <? 4 then legacy_row else modern_row.

Definition scheme_pack_row (height : Z) : list Z -> list Z :=
  if RPICAM2DNG.version height <? 4 then legacy_pack_row else modern_pack_row.

Definition scheme_bits (height : Z) : Z :=
  if RPICAM2DNG.version height <? 4 then 10 else 12.

Definition unpacked_width (height : Z) : Z :=
  if RPICAM2DNG.version height <? 4 then (crop_shape height).2 / 5 * 4
  else (crop_shape height).2 / 3 * 2.

(** ** Lists *)

Section ListFacts.
Context {A B C : Type}.

Lemma zip_with_map_diag (f : B -> C -> A) (g : A -> B) (h : A -> C) (l : list A) :
  zip_with f (map g l) (map h l) = map (fun x => f (g x) (h x)) l.
Proof. induction l as [|x l IH]; simpl; [reflexivity | now rewrite IH]. Qed.

Lemma zip_with_repeat_l (f : B -> C -> A) (z : B) (n : nat) (l : list C) :
  (length l <= n)%nat -> zip_with f (repeat z n) l = map (f z) l.
Proof.
  revert n; induction l as [|x l IH]; intros [|n] Hn; simpl in *;
    try reflexivity; try lia.
  rewrite IH by lia. reflexivity.
Qed.

Lemma put_every_length (k s : nat) (vs l : list A) :
  length (put_every k s vs l) = length l.
Proof.
  revert k vs; induction l as [|x l IH]; intros k vs; simpl; [reflexivity|].
  destruct k as [|k]; [destruct vs as [|v vs]|]; simpl; try rewrite IH; reflexivity.
Qed.

Lemma chunks_length (r c : nat) (l : list A) : length (chunks r c l) = r.
Proof. revert l; induction r as [|r IH]; intros l; simpl; [reflexivity | now rewrite IH]. Qed.

Lemma chunks_row_length (r c : nat) (l : list A) :
  length l = (r * c)%nat -> Forall (fun row => length row = c) (chunks r c l).
Proof.
  revert l; induction r as [|r IH]; intros l Hl; simpl; constructor.
  - rewrite length_take. simpl in Hl. lia.
  - apply IH. rewrite length_drop. simpl in Hl. lia.
Qed.

Lemma chunks_Forall (P : A -> Prop) (r c : nat) (l : list A) :
  Forall P l -> Forall (Forall P) (chunks r c l).
Proof.
  revert l; induction r as [|r IH]; intros l Hl; simpl; constructor.
  - now apply Forall_take.
  - apply IH. now apply Forall_drop.
Qed.

End ListFacts.

Lemma broadcast_row_id (n : Z) (r : list Z) :
  length r = Z.to_nat n -> broadcast_row n r = r.
Proof.
  intros H. destruct r as [|x [|y r]]; try reflexivity.
  simpl in *. rewrite <- H. reflexivity.
Qed.

Lemma slice_len_full (k s n : Z) :
  0 <= k < s -> 0 <= n -> slice_len k s (s * n) = n.
Proof.
  intros Hk Hn. unfold slice_len.
  destruct (Z.leb_spec (s * n) k) as [H|H]; [nia|].
  symmetry. apply (Z.div_unique_pos _ _ _ (s - 1 - k)); lia.
Qed.

(** Rows cut in groups of five and of three. *)
Lemma every5_length (r : list Z) (n : nat) :
  length r = (5 * n)%nat ->
  length (every 0 5 r) = n /\ length (every 1 5 r) = n /\ length (every 2 5 r) = n /\
  length (every 3 5 r) = n /\ length (every 4 5 r) = n.
Proof.
  revert r; induction n as [|n IH]; intros r Hr.
  - destruct r; [simpl; tauto | simpl in Hr; lia].
  - destruct r as [|c0 [|c1 [|c2 [|c3 [|c4 r]]]]]; simpl in Hr; try lia.
    destruct (IH r) as (H0 & H1 & H2 & H3 & H4); [lia|].
    simpl. rewrite H0, H1, H2, H3, H4. tauto.
Qed.

Lemma every3_length (r : list Z) (n : nat) :
  length r = (3 * n)%nat ->
  length (every 0 3 r) = n /\ length (every 1 3 r) = n /\ length (every 2 3 r) = n.
Proof.
  revert r; induction n as [|n IH]; intros r Hr.
  - destruct r; [simpl; tauto | simpl in Hr; lia].
  - destruct r as [|c0 [|c1 [|c2 r]]]; simpl in Hr; try lia.
    destruct (IH r) as (H0 & H1 & H2); [lia|].
    simpl. rewrite H0, H1, H2. tauto.
Qed.

Lemma zip_with_map_r_diag {A B C : Type} (f : A -> B -> C) (h : A -> B) (l : list A) :
  zip_with f l (map h l) = map (fun x => f x (h x)) l.
Proof. induction l as [|x l IH]; simpl; [reflexivity | now rewrite IH]. Qed.

(** ** uint8 samples under uint16 arithmetic *)

Lemma in_uint8 (c : Z) : in_dtype uint8 c <-> 0 <= c < 256.
Proof.
  unfold in_dtype, dtype_min, dtype_max. simpl is_signed. cbv iota.
  change (2 ^ (8 * itemsize uint8)) with 256. lia.
Qed.

Lemma cast_uint16_small (c : Z) : 0 <= c < 65536 -> cast uint16 c = c.
Proof.
  intros H. unfold cast. simpl is_signed. simpl andb. cbv iota zeta.
  change (2 ^ (8 * itemsize uint16)) with 65536. now apply Z.mod_small.
Qed.

Lemma byte_lshift (c k : Z) :
  0 <= c < 256 -> 0 <= k <= 8 -> u16 (Z.shiftl (cast uint16 c) k) = Z.shiftl c k.
Proof.
  intros Hc Hk. rewrite (cast_uint16_small c) by lia.
  unfold u16. apply Z.mod_small. rewrite Z.shiftl_mul_pow2 by lia.
  assert (0 < 2 ^ k <= 2 ^ 8) by (split; [apply Z.pow_pos_nonneg; lia | apply Z.pow_le_mono_r; lia]).
  change (2 ^ 8) with 256 in *. change (2 ^ 16) with 65536. nia.
Qed.

(** A sum with no carry is a bitwise or. *)
Lemma add_nibble_lor (b m : Z) :
  0 <= b < 256 -> u16 (Z.shiftl b 4 + Z.land m 15) = Z.lor (Z.shiftl b 4) (Z.land m 15).
Proof.
  intros Hb.
  assert (Hd : Z.land (Z.shiftl b 4) (Z.land m 15) = 0).
  { apply Z.bits_inj'. intros i Hi. rewrite !Z.land_spec, Z.bits_0.
    destruct (Z.lt_ge_cases i 4) as [Hlt|Hge].
    - rewrite Z.shiftl_spec_low by lia. reflexivity.
    - change 15 with (Z.ones 4). rewrite Z.ones_spec_high by lia.
      rewrite !andb_false_r. reflexivity. }
  rewrite <- Z.lxor_lor by exact Hd.
  rewrite <- Z.add_nocarry_lxor by exact Hd.
  unfold u16. apply Z.mod_small.
  assert (0 <= Z.land m 15 < 16).
  { change 15 with (Z.ones 4). rewrite Z.land_ones by lia. apply Z.mod_pos_bound. lia. }
  rewrite Z.shiftl_mul_pow2 by lia. change (2 ^ 4) with 16. change (2 ^ 16) with 65536. lia.
Qed.

(** ** The legacy scheme, row by row *)

Lemma legacy_step_length (k : nat) (s : Z) (r : list Z) :
  length (legacy_step k s r) = length r.
Proof. apply put_every_length. Qed.

Lemma legacy_step0_group (s c0 c1 c2 c3 c4 : Z) (t : list Z) :
  legacy_step 0 s (c0 :: c1 :: c2 :: c3 :: c4 :: t)
  = Z.lor c0 (Z.land (Z.shiftr c4 s) 3) :: c1 :: c2 :: c3 :: c4 :: legacy_step 0 s t.
Proof. reflexivity. Qed.

Lemma legacy_step1_group (s c0 c1 c2 c3 c4 : Z) (t : list Z) :
  legacy_step 1 s (c0 :: c1 :: c2 :: c3 :: c4 :: t)
  = c0 :: Z.lor c1 (Z.land (Z.shiftr c4 s) 3) :: c2 :: c3 :: c4 :: legacy_step 1 s t.
Proof. reflexivity. Qed.

Lemma legacy_step2_group (s c0 c1 c2 c3 c4 : Z) (t : list Z) :
  legacy_step 2 s (c0 :: c1 :: c2 :: c3 :: c4 :: t)
  = c0 :: c1 :: Z.lor c2 (Z.land (Z.shiftr c4 s) 3) :: c3 :: c4 :: legacy_step 2 s t.
Proof. reflexivity. Qed.

Lemma legacy_step3_group (s c0 c1 c2 c3 c4 : Z) (t : list Z) :
  legacy_step 3 s (c0 :: c1 :: c2 :: c3 :: c4 :: t)
  = c0 :: c1 :: c2 :: Z.lor c3 (Z.land (Z.shiftr c4 s) 3) :: c4 :: legacy_step 3 s t.
Proof. reflexivity. Qed.

Lemma legacy_code_row_spec (n : nat) (r : list Z) :
  length r = (5 * n)%nat -> Forall (in_dtype uint8) r ->
  legacy_code_row r = legacy_row r.
Proof.
  revert r; induction n as [|n IH]; intros r Hlen Hr.
  - destruct r; [reflexivity | simpl in Hlen; lia].
  - destruct r as [|c0 [|c1 [|c2 [|c3 [|c4 t]]]]]; simpl in Hlen; try lia.
    repeat match goal with
           | H : Forall _ (_ :: _) |- _ => apply Forall_cons in H; destruct H as [?%in_uint8 H]
           end.
    specialize (IH t ltac:(lia) Hr).
    unfold legacy_code_row in *. simpl map.
    rewrite legacy_step0_group, legacy_step1_group, legacy_step2_group, legacy_step3_group.
    change (drop_every 4 5 (?a :: ?b :: ?c :: ?d :: ?e :: ?l))
      with (a :: b :: c :: d :: drop_every 4 5 l).
    rewrite IH. rewrite !byte_lshift by lia. reflexivity.
Qed.

Lemma ior_cols_rows (a : arr2) (k s n : Z) :
  0 <= k < 4 -> 0 <= n -> rect (5 * n) a ->
  ior_cols k 5 a (and_ 3 (rshift s (cols 4 5 a)))
  = Ok (mk_arr2 (nrows a) (ncols a) (map (legacy_step (Z.to_nat k) s) (rows a))).
Proof.
  intros Hk Hn [Hc Hr]. destruct a as [nr nc rs]. simpl in Hc, Hr. subst nc.
  unfold ior_cols, and_, rshift, ufunc1, cols, ufunc2, set_cols. simpl.
  rewrite (slice_len_full 4 5 n), (slice_len_full k 5 n) by lia.
  rewrite !bool_decide_eq_true_2 by (left; reflexivity). simpl.
  rewrite !bool_decide_eq_true_2 by (left; reflexivity).
  do 2 f_equal.
  rewrite !List.map_map, zip_with_map_diag, zip_with_map_r_diag.
  apply List.map_ext_Forall. eapply List.Forall_impl; [|exact Hr].
  intros r Hlen. simpl in Hlen.
  destruct (every5_length r (Z.to_nat n)) as (H0 & H1 & H2 & H3 & H4); [lia|].
  change (Z.to_nat 5) with 5%nat. change (Z.to_nat 4) with 4%nat.
  assert (Hlk : length (every (Z.to_nat k) 5 r) = Z.to_nat n).
  { assert (Hcases : k = 0 \/ k = 1 \/ k = 2 \/ k = 3) by lia.
    destruct Hcases as [ -> | [ -> | [ -> | -> ]]]; assumption. }
  unfold legacy_step.
  rewrite (broadcast_row_id n (map _ _)) by (now rewrite !List.length_map).
  rewrite broadcast_row_id; [reflexivity|].
  rewrite length_zip_with, !List.length_map. lia.
Qed.

Lemma ior_cols_rect (a : arr2) (k : nat) (s w : Z) :
  rect w a -> rect w (mk_arr2 (nrows a) (ncols a) (map (legacy_step k s) (rows a))).
Proof.
  intros [Hc Hr]. split; [exact Hc|]. simpl.
  apply Forall_map. eapply List.Forall_impl; [|exact Hr].
  intros r Hlen. simpl. now rewrite legacy_step_length.
Qed.

Lemma bind_Ok {A B : Type} (a : A) (f : A -> result B) : (Ok a ≫= f) = f a.
Proof. reflexivity. Qed.

Ltac legacy_turn :=
  match goal with
  | H : rect (5 * ?n) ?a |- context [ior_cols ?k 5 ?a (and_ 3 (rshift ?s (cols 4 5 ?a)))] =>
      rewrite (ior_cols_rows a k s n) by (lia || exact H);
      rewrite bind_Ok;
      apply (ior_cols_rect a (Z.to_nat k) s) in H
  end.

Lemma unpack_legacy_rows (a : arr2) (n : Z) :
  0 <= n -> rect (5 * n) a ->
  RPICAM2DNG.unpack_legacy a
  = Ok (mk_arr2 (nrows a) (4 * n) (map legacy_code_row (rows a))).
Proof.
  intros Hn Ha. unfold RPICAM2DNG.unpack_legacy.
  assert (Ha0 : rect (5 * n) (lshift 2 (astype16 a))).
  { destruct Ha as [Hc Hr]. split; [exact Hc|]. simpl.
    rewrite List.map_map. apply Forall_map. eapply List.Forall_impl; [|exact Hr].
    intros r Hlen. simpl. now rewrite !List.length_map. }
  simpl RPICAM2DNG.for_in.
  do 4 legacy_turn.
  unfold delete_cols. simpl.
  destruct Ha as [Hc Hr]. rewrite Hc, (slice_len_full 4 5 n) by lia.
  f_equal. f_equal; [lia|].
  rewrite !List.map_map. reflexivity.
Qed.

(** ** The modern scheme, row by row *)

Lemma modern_code_row_group (z0 z1 b0 b1 b2 : Z) (z t : list Z) :
  modern_code_row (z0 :: z1 :: z) (b0 :: b1 :: b2 :: t)
  = u16 (u16 (Z.shiftl (cast uint16 b0) 4) + Z.land (cast uint16 b2) 15)
    :: u16 (u16 (Z.shiftl (cast uint16 b1) 4) + Z.land (Z.shiftr (cast uint16 b2) 4) 15)
    :: modern_code_row z t.
Proof. reflexivity. Qed.

Lemma modern_code_row_spec (n : nat) (z r : list Z) :
  length r = (3 * n)%nat -> length z = (2 * n)%nat -> Forall (in_dtype uint8) r ->
  modern_code_row z r = modern_row r.
Proof.
  revert z r; induction n as [|n IH]; intros z r Hlen Hz Hr.
  - destruct r; [|simpl in Hlen; lia]. destruct z; [reflexivity | simpl in Hz; lia].
  - destruct r as [|b0 [|b1 [|b2 t]]]; simpl in Hlen; try lia.
    destruct z as [|z0 [|z1 z]]; simpl in Hz; try lia.
    repeat match goal with
           | H : Forall _ (_ :: _) |- _ => apply Forall_cons in H; destruct H as [?%in_uint8 H]
           end.
    rewrite modern_code_row_group, (IH z t) by (lia || assumption).
    rewrite !byte_lshift, (cast_uint16_small b2), !add_nibble_lor by lia.
    reflexivity.
Qed.

Lemma modern_width (n : Z) : 2 * (3 * n) / 3 = 2 * n.
Proof. replace (2 * (3 * n)) with (2 * n * 3) by lia. apply Z.div_mul. lia. Qed.

Lemma unpack_modern_rows (a : arr2) (n : Z) :
  0 <= n -> rect (3 * n) a -> length (rows a) = Z.to_nat (nrows a) ->
  RPICAM2DNG.unpack_modern a
  = Ok (mk_arr2 (nrows a) (2 * n)
          (map (modern_code_row (repeat 0 (Z.to_nat (2 * n)))) (rows a))).
Proof.
  intros Hn [Hc Hr] Hrows. destruct a as [nr nc rs]. simpl in Hc, Hr, Hrows. subst nc.
  unfold RPICAM2DNG.unpack_modern, add, and_, rshift, lshift, astype16, ufunc1, cols,
    ufunc2, set_cols, zeros. simpl.
  rewrite modern_width.
  rewrite (slice_len_full 0 3 n), (slice_len_full 1 3 n), (slice_len_full 2 3 n) by lia.
  rewrite !bool_decide_eq_true_2 by (left; reflexivity). simpl.
  rewrite (slice_len_full 0 2 n) by lia.
  rewrite !bool_decide_eq_true_2 by (left; reflexivity). simpl.
  rewrite (slice_len_full 1 2 n) by lia.
  rewrite !bool_decide_eq_true_2 by (left; reflexivity). simpl.
  do 2 f_equal.
  rewrite !List.map_map, !zip_with_map_diag.
  rewrite zip_with_repeat_l by (rewrite List.length_map; lia).
  rewrite List.map_map, zip_with_map_diag.
  apply List.map_ext_Forall. eapply List.Forall_impl; [|exact Hr].
  intros r Hlen. simpl in Hlen.
  destruct (every3_length (map (cast uint16) r) (Z.to_nat n)) as (H0 & H1 & H2);
    [rewrite List.length_map; lia|].
  change (Z.to_nat 0) with 0%nat. change (Z.to_nat 1) with 1%nat.
  change (Z.to_nat 2) with 2%nat. change (Z.to_nat 3) with 3%nat.
  unfold modern_code_row.
  rewrite !(broadcast_row_id n (map _ _)) by (now rewrite !List.length_map).
  rewrite !broadcast_row_id; [reflexivity| |];
    rewrite length_zip_with, !List.length_map; lia.
Qed.

(** ** Reshape and crop *)

Lemma cropped_rows_facts (P : Z -> Prop) (R C cr cc : Z) (l : list Z) :
  0 <= cr <= R -> 0 <= cc <= C -> Z.of_nat (length l) = R * C -> Forall P l ->
  length (cropped_rows (R, C) (cr, cc) l) = Z.to_nat cr /\
  Forall (fun r => length r = Z.to_nat cc) (cropped_rows (R, C) (cr, cc) l) /\
  Forall (Forall P) (cropped_rows (R, C) (cr, cc) l).
Proof.
  intros Hr Hc Hlen HP. unfold cropped_rows. simpl.
  assert (Hl : length l = (Z.to_nat R * Z.to_nat C)%nat).
  { apply Nat2Z.inj. rewrite Nat2Z.inj_mul, !Z2Nat.id by lia. exact Hlen. }
  split; [|split].
  - rewrite List.length_map, length_take, chunks_length. lia.
  - apply Forall_map. apply Forall_take.
    eapply List.Forall_impl; [|apply (chunks_row_length _ _ _ Hl)].
    intros r Hrl. simpl in *. rewrite length_take. lia.
  - apply Forall_map. apply Forall_take.
    eapply List.Forall_impl; [|apply (chunks_Forall P _ _ _ HP)].
    intros r Hrl. simpl. now apply Forall_take.
Qed.

Lemma reshape_crop (ver R C cr cc : Z) (a : ndarray) :
  0 <= cr <= R -> 0 <= cc <= C -> nd_size a = R * C ->
  RPICAM2DNG.unpack_with ver (R, C) (cr, cc) a
  = (if ver <? 4 then RPICAM2DNG.unpack_legacy else RPICAM2DNG.unpack_modern)
      (mk_arr2 cr cc (cropped_rows (R, C) (cr, cc) (data a)))
    ≫= fun d => Ok (to_ndarray uint16 d).
Proof.
  intros Hr Hc Hsz. unfold RPICAM2DNG.unpack_with, reshape.
  cbn [fst snd]. rewrite Hsz, Z.eqb_refl, bind_Ok.
  unfold crop, cropped_rows. cbn [fst snd nrows ncols rows].
  rewrite !Z.min_l by lia. destruct (ver <? 4); reflexivity.
Qed.

Lemma unpack_with_legacy (ver R C cr cc n : Z) (a : ndarray) :
  ver < 4 -> 0 <= cr <= R -> 0 <= cc <= C -> cc = 5 * n ->
  nd_size a = R * C -> Forall (in_dtype uint8) (data a) ->
  RPICAM2DNG.unpack_with ver (R, C) (cr, cc) a
  = Ok (mk_ndarray uint16 [cr; 4 * n]
          (concat (map legacy_row (cropped_rows (R, C) (cr, cc) (data a))))).
Proof.
  intros Hv Hr Hc Hn Hsz Hb.
  destruct (cropped_rows_facts (in_dtype uint8) R C cr cc (data a) Hr Hc Hsz Hb)
    as (Hcount & Hlen & Hbytes).
  rewrite reshape_crop by assumption.
  destruct (Z.ltb_spec ver 4) as [_|?]; [|lia].
  rewrite (unpack_legacy_rows _ n) by first [lia | split; [exact Hn | subst cc; exact Hlen]].
  rewrite bind_Ok. unfold to_ndarray. cbn [nrows ncols rows]. do 3 f_equal.
  apply List.map_ext_Forall.
  apply Forall_forall. intros r Hin.
  rewrite Forall_forall in Hlen, Hbytes.
  apply (legacy_code_row_spec (Z.to_nat n)); [rewrite (Hlen r Hin); lia | exact (Hbytes r Hin)].
Qed.

Lemma unpack_with_modern (ver R C cr cc n : Z) (a : ndarray) :
  4 <= ver -> 0 <= cr <= R -> 0 <= cc <= C -> cc = 3 * n ->
  nd_size a = R * C -> Forall (in_dtype uint8) (data a) ->
  RPICAM2DNG.unpack_with ver (R, C) (cr, cc) a
  = Ok (mk_ndarray uint16 [cr; 2 * n]
          (concat (map modern_row (cropped_rows (R, C) (cr, cc) (data a))))).
Proof.
  intros Hv Hr Hc Hn Hsz Hb.
  destruct (cropped_rows_facts (in_dtype uint8) R C cr cc (data a) Hr Hc Hsz Hb)
    as (Hcount & Hlen & Hbytes).
  rewrite reshape_crop by assumption.
  destruct (Z.ltb_spec ver 4) as [?|_]; [lia|].
  rewrite (unpack_modern_rows _ n) by first [lia | exact Hcount | split; [exact Hn | subst cc; exact Hlen]].
  rewrite bind_Ok. unfold to_ndarray. cbn [nrows ncols rows]. do 3 f_equal.
  apply List.map_ext_Forall.
  apply Forall_forall. intros r Hin.
  rewrite Forall_forall in Hlen, Hbytes.
  apply (modern_code_row_spec (Z.to_nat n));
    [rewrite (Hlen r Hin); lia | rewrite repeat_length; lia | exact (Hbytes r Hin)].
Qed.

Lemma unpack_pixels_uint8 (model : BaseCameraModel) (img : ndarray) (height : Z) :
  nd_dtype img = uint8 ->
  rawValue0 (model_tags model) ImageLength = Ok height ->
  RPICAM2DNG.__unpack_pixels__ model img
  = RPICAM2DNG.geometry (RPICAM2DNG.version height)
    ≫= fun g => RPICAM2DNG.unpack_with (RPICAM2DNG.version height) g.1 g.2 img.
Proof.
  intros Hd Hh. unfold RPICAM2DNG.__unpack_pixels__.
  rewrite bool_decide_eq_false_2 by (intros Hne; apply Hne; exact Hd).
  rewrite Hh, bind_Ok.
  destruct (RPICAM2DNG.geometry (RPICAM2DNG.version height)) as [[[? ?] [? ?]]|e];
    reflexivity.
Qed.

Lemma legacy_sample_bits (offset c c4 : Z) :
  0 <= offset ->
  legacy_sample offset (Z.shiftl c 2) (Z.shiftl c4 2)
  = Z.lor (Z.shiftl c 2) (Z.land (Z.shiftr c4 (2 * offset)) 3).
Proof.
  intros Ho. unfold legacy_sample.
  rewrite Z.shiftr_shiftl_r by lia.
  replace ((offset + 1) * 2 - 2) with (2 * offset) by lia. reflexivity.
Qed.

Lemma slice_probe_size : nd_size slice_probe = 768 * 1280.
Proof.
  unfold nd_size, slice_probe. cbn [data].
  rewrite length_app, repeat_length, Nat2Z.inj_add, Z2Nat.id by lia.
  reflexivity.
Qed.

Lemma slice_probe_bytes : Forall (in_dtype uint8) (data slice_probe).
Proof.
  unfold slice_probe. cbn [data]. apply Forall_app. split.
  - repeat constructor; vm_compute; intros H; discriminate H.
  - apply Forall_forall. intros x Hx. apply list_elem_of_In, repeat_spec in Hx.
    subst x. apply in_uint8. lia.
Qed.

(** The first row of the cropped probe starts with its first group. *)
Lemma slice_probe_first_group :
  exists t rows,
    cropped_rows (768, 1280) (760, 1265) (data slice_probe)
    = (0 :: 0 :: 0 :: 0 :: 228 :: t) :: rows.
Proof.
  unfold cropped_rows, slice_probe. cbn [fst snd data].
  replace (Z.to_nat 768) with (S (Z.to_nat 767)) by lia.
  replace (Z.to_nat 760) with (S (Z.to_nat 759)) by lia.
  replace (Z.to_nat 1280) with (5 + Z.to_nat 1275)%nat by lia.
  replace (Z.to_nat 1265) with (5 + Z.to_nat 1260)%nat by lia.
  cbn [chunks firstn map app Nat.add]. eexists _, _. reflexivity.
Qed.

(** C2, as stated: under a legacy geometry the result is the cropped rows
    unpacked with only the four data columns shifted and the slice cut from
    the fifth column of the cropped buffer.  It fails on the probe under
    the 760-row geometry: for the first group [0, 0, 0, 0, 228] the code
    gives the samples 0, 1, 2, 3, the wording gives 1, 2, 3, 0. *)
Lemma legacy_fifth_column_counterexample :
  ~ (forall (model : BaseCameraModel) (img : ndarray) (height : Z) (RC crop_ : Z * Z),
       nd_dtype img = uint8 ->
       rawValue0 (model_tags model) ImageLength = Ok height ->
       In (height, (RC, crop_)) legacy_geometries ->
       nd_size img = RC.1 * RC.2 ->
       Forall (in_dtype uint8) (data img) ->
       RPICAM2DNG.__unpack_pixels__ model img
       = Ok (mk_ndarray uint16 [crop_.1; crop_.2 / 5 * 4]
               (concat (map claimed_legacy_row (cropped_rows RC crop_ (data img)))))).
Proof.
  intros H.
  assert (Hh : rawValue0 (model_tags (model_of_height 760)) ImageLength = Ok 760)
    by (vm_compute; reflexivity).
  specialize (H (model_of_height 760) slice_probe 760 (768, 1280) (760, 1265)
                eq_refl Hh (or_intror (or_intror (or_introl eq_refl)))
                slice_probe_size slice_probe_bytes).
  rewrite (unpack_pixels_uint8 (model_of_height 760) slice_probe 760 eq_refl Hh) in H.
  change (RPICAM2DNG.geometry (RPICAM2DNG.version 760))
    with (Ok ((768, 1280), (760, 1265)) : result ((Z * Z) * (Z * Z))) in H.
  rewrite bind_Ok in H. cbn [fst snd] in H.
  change (RPICAM2DNG.version 760) with 3 in H.
  rewrite (unpack_with_legacy 3 768 1280 760 1265 253 slice_probe
             ltac:(lia) ltac:(lia) ltac:(lia) eq_refl
             slice_probe_size slice_probe_bytes) in H.
  destruct slice_probe_first_group as (t & rows & Hrows).
  rewrite Hrows in H.
  cbn [map legacy_row claimed_legacy_row concat app] in H.
  injection H as Hhead _. vm_compute in Hhead. discriminate Hhead.
Qed.

(** C2, amended.  Under each of the three legacy geometries (declared
    heights 1944, 2464, 760) a uint8 buffer of the packed size is reshaped,
    cropped to rows that are whole groups of five columns, and every group
    gives four samples: all five columns are shifted left by 2, the fifth
    included; data column [offset] is or-ed with the two bits cut from the
    shifted fifth column by a right shift of [(offset+1)*2] and a mask of
    3, which are bits [2*offset] and [2*offset+1] of the fifth byte of the
    buffer; the fifth columns are gone from the result. *)
Theorem legacy_unpack_groups_of_five
    (model : BaseCameraModel) (img : ndarray) (height : Z) (RC crop_ : Z * Z) :
  nd_dtype img = uint8 ->
  rawValue0 (model_tags model) ImageLength = Ok height ->
  In (height, (RC, crop_)) legacy_geometries ->
  nd_size img = RC.1 * RC.2 ->
  Forall (in_dtype uint8) (data img) ->
  RPICAM2DNG.__unpack_pixels__ model img
  = Ok (mk_ndarray uint16 [crop_.1; crop_.2 / 5 * 4]
          (concat (map legacy_row (cropped_rows RC crop_ (data img)))))
  /\ crop_.2 mod 5 = 0
  /\ Forall (fun r => Z.of_nat (length r) = crop_.2) (cropped_rows RC crop_ (data img))
  /\ forall offset c c4, 0 <= offset ->
       legacy_sample offset (Z.shiftl c 2) (Z.shiftl c4 2)
       = Z.lor (Z.shiftl c 2) (Z.land (Z.shiftr c4 (2 * offset)) 3).
Proof.
  intros Hd Hh Hg Hsz Hb.
  rewrite (unpack_pixels_uint8 model img height Hd Hh).
  assert (Hgeo : exists n, 0 <= crop_.1 <= RC.1 /\ 0 <= crop_.2 <= RC.2 /\ crop_.2 = 5 * n
            /\ RPICAM2DNG.version height < 4
            /\ RPICAM2DNG.geometry (RPICAM2DNG.version height) = Ok (RC, crop_)).
  { destruct Hg as [Hg|[Hg|[Hg|[]]]]; injection Hg as <- <- <-;
      [exists 648 | exists 820 | exists 253]; cbn; repeat split; lia. }
  destruct Hgeo as (n & Hr & Hc & Hn & Hv & Hgm).
  destruct RC as [R C], crop_ as [cr cc]. cbn [fst snd] in *.
  rewrite Hgm, bind_Ok. cbn [fst snd].
  destruct (cropped_rows_facts (in_dtype uint8) R C cr cc (data img) Hr Hc Hsz Hb)
    as (_ & Hlen & _).
  split; [|split; [|split]].
  - rewrite (unpack_with_legacy _ R C cr cc n) by assumption.
    subst cc. replace (5 * n / 5 * 4) with (4 * n); [reflexivity|].
    rewrite (Z.mul_comm 5 n), Z.div_mul by lia. lia.
  - subst cc. rewrite Z.mul_comm. apply Z.mod_mul. lia.
  - eapply List.Forall_impl; [|exact Hlen]. intros r Hrl. simpl in Hrl. lia.
  - intros offset c c4. apply legacy_sample_bits.
Qed.

(** C3.  Under each of the three modern geometries (declared heights 1080,
    1520, 3040) a uint8 buffer of the packed size is reshaped, cropped to
    rows that are whole triplets, and every triplet [(b0, b1, b2)] gives the
    even sample [(b0 << 4) | (b2 & 0x0F)] and the odd sample
    [(b1 << 4) | ((b2 >> 4) & 0x0F)]: two samples for three bytes. *)
Theorem modern_unpack_two_per_three
    (model : BaseCameraModel) (img : ndarray) (height : Z) (RC crop_ : Z * Z) :
  nd_dtype img = uint8 ->
  rawValue0 (model_tags model) ImageLength = Ok height ->
  In (height, (RC, crop_)) modern_geometries ->
  nd_size img = RC.1 * RC.2 ->
  Forall (in_dtype uint8) (data img) ->
  RPICAM2DNG.__unpack_pixels__ model img
  = Ok (mk_ndarray uint16 [crop_.1; crop_.2 / 3 * 2]
          (concat (map modern_row (cropped_rows RC crop_ (data img)))))
  /\ crop_.2 mod 3 = 0
  /\ Forall (fun r => Z.of_nat (length r) = crop_.2) (cropped_rows RC crop_ (data img)).
Proof.
  intros Hd Hh Hg Hsz Hb.
  rewrite (unpack_pixels_uint8 model img height Hd Hh).
  assert (Hgeo : exists n, 0 <= crop_.1 <= RC.1 /\ 0 <= crop_.2 <= RC.2 /\ crop_.2 = 3 * n
            /\ 4 <= RPICAM2DNG.version height
            /\ RPICAM2DNG.geometry (RPICAM2DNG.version height) = Ok (RC, crop_)).
  { destruct Hg as [Hg|[Hg|[Hg|[]]]]; injection Hg as <- <- <-;
      [exists 1014 | exists 1014 | exists 2028]; cbn; repeat split; lia. }
  destruct Hgeo as (n & Hr & Hc & Hn & Hv & Hgm).
  destruct RC as [R C], crop_ as [cr cc]. cbn [fst snd] in *.
  rewrite Hgm, bind_Ok. cbn [fst snd].
  destruct (cropped_rows_facts (in_dtype uint8) R C cr cc (data img) Hr Hc Hsz Hb)
    as (_ & Hlen & _).
  split; [|split].
  - rewrite (unpack_with_modern _ R C cr cc n) by assumption.
    subst cc. replace (3 * n / 3 * 2) with (2 * n); [reflexivity|].
    rewrite (Z.mul_comm 3 n), Z.div_mul by lia. lia.
  - subst cc. rewrite Z.mul_comm. apply Z.mod_mul. lia.
  - eapply List.Forall_impl; [|exact Hlen]. intros r Hrl. simpl in Hrl. lia.
Qed.

(** ** The mandatory tags *)

Lemma tags_condition_cases (tgs : DNGTags) :
  match DNGBASE.__tags_condition__ tgs with
  | Ok _ =>
      get tgs ImageWidth <> None /\ get tgs ImageLength <> None /\
      get tgs BitsPerSample <> None
  | Raise e =>
      exists t msg, In (t, msg) mandatory /\ get tgs t = None /\ e = Exception msg
  end.
Proof.
  unfold DNGBASE.__tags_condition__, DNGBASE.py_not, mandatory.
  destruct (get tgs ImageWidth) eqn:Hw;
    [destruct (get tgs ImageLength) eqn:Hl;
       [destruct (get tgs BitsPerSample) eqn:Hb|]|].
  - repeat split; discriminate.
  - exists BitsPerSample. eexists. simpl. eauto 10.
  - exists ImageLength. eexists. simpl. eauto 10.
  - exists ImageWidth. eexists. simpl. eauto 10.
Qed.

(** C1.  When the tag set lacks [ImageWidth], [ImageLength] or
    [BitsPerSample], [options] raises; the message is the one of a
    mandatory tag that is absent; the object is left as it was, so a
    converter that had no options still has none and [convert] refuses to
    start, whatever the image, without reading it. *)
Theorem options_rejects_missing_mandatory_tag
    (tgs : DNGTags) (pth : string) (cmp : bool) (s : DNGBASE.self) :
  get tgs ImageWidth = None \/ get tgs ImageLength = None \/
  get tgs BitsPerSample = None ->
  exists t msg,
    In (t, msg) mandatory /\ get tgs t = None /\
    DNGBASE.options tgs pth cmp s = (Raise (Exception msg), s) /\
    (DNGBASE.tags s = None ->
     forall M cls image filename w,
       DNGBASE.convert M cls (DNGBASE.options tgs pth cmp s).2 image filename w
       = (Raise (Exception "Options have not been set!"), w)).
Proof.
  intros Hmiss. unfold DNGBASE.options.
  pose proof (tags_condition_cases tgs) as Hc.
  destruct (DNGBASE.__tags_condition__ tgs) as [[]|e].
  - destruct Hc as (Hw & Hl & Hb). tauto.
  - destruct Hc as (t & msg & Hin & Hnone & ->).
    exists t, msg. repeat split; try assumption.
    intros Hs M cls image filename w. unfold DNGBASE.convert. simpl. now rewrite Hs.
Qed.

Lemma options_rejects_missing_mandatory_tag_witness :
  exists t msg,
    In (t, msg) mandatory /\
    get (tags_of [(ImageLength, [760]); (BitsPerSample, [10])]) t = None /\
    DNGBASE.options (tags_of [(ImageLength, [760]); (BitsPerSample, [10])]) "/tmp" false
      DNGBASE.__init__
    = (Raise (Exception msg), DNGBASE.__init__) /\
    (DNGBASE.tags DNGBASE.__init__ = None ->
     forall M cls image filename w,
       DNGBASE.convert M cls
         (DNGBASE.options (tags_of [(ImageLength, [760]); (BitsPerSample, [10])])
            "/tmp" false DNGBASE.__init__).2 image filename w
       = (Raise (Exception "Options have not been set!"), w)).
Proof.
  apply (options_rejects_missing_mandatory_tag
           (tags_of [(ImageLength, [760]); (BitsPerSample, [10])]) "/tmp" false
           DNGBASE.__init__).
  left. vm_compute. reflexivity.
Defined.

(** ** The unpackers on the sensor geometries *)

Lemma ramp_length (n : nat) : length (ramp n) = n.
Proof. unfold ramp. now rewrite List.length_map, length_seq. Qed.

Lemma ramp_bytes (n : nat) : Forall (in_dtype uint8) (ramp n).
Proof.
  unfold ramp. apply Forall_map. apply Forall_forall. intros i _.
  apply in_uint8. apply Z.mod_pos_bound. lia.
Qed.

Lemma packed_ramp_size (n : Z) : 0 <= n -> nd_size (packed_ramp n) = n.
Proof.
  intros Hn. unfold nd_size, packed_ramp. cbn [data].
  rewrite ramp_length. now apply Z2Nat.id.
Qed.

Lemma legacy_unpack_groups_of_five_witness :
  RPICAM2DNG.__unpack_pixels__ (model_of_height 760) (packed_ramp 983040)
  = Ok (mk_ndarray uint16 [(760, 1265).1; (760, 1265).2 / 5 * 4]
          (concat (map legacy_row
             (cropped_rows (768, 1280) (760, 1265) (data (packed_ramp 983040))))))
  /\ (760, 1265).2 mod 5 = 0
  /\ Forall (fun r => Z.of_nat (length r) = (760, 1265).2)
       (cropped_rows (768, 1280) (760, 1265) (data (packed_ramp 983040)))
  /\ forall offset c c4, 0 <= offset ->
       legacy_sample offset (Z.shiftl c 2) (Z.shiftl c4 2)
       = Z.lor (Z.shiftl c 2) (Z.land (Z.shiftr c4 (2 * offset)) 3).
Proof.
  apply (legacy_unpack_groups_of_five (model_of_height 760) (packed_ramp 983040) 760
           (768, 1280) (760, 1265)).
  - reflexivity.
  - vm_compute. reflexivity.
  - right. right. left. reflexivity.
  - rewrite packed_ramp_size by lia. reflexivity.
  - apply ramp_bytes.
Defined.

Lemma modern_unpack_two_per_three_witness :
  RPICAM2DNG.__unpack_pixels__ (model_of_height 1080) (packed_ramp 3317760)
  = Ok (mk_ndarray uint16 [(1080, 3042).1; (1080, 3042).2 / 3 * 2]
          (concat (map modern_row
             (cropped_rows (1080, 3072) (1080, 3042) (data (packed_ramp 3317760))))))
  /\ (1080, 3042).2 mod 3 = 0
  /\ Forall (fun r => Z.of_nat (length r) = (1080, 3042).2)
       (cropped_rows (1080, 3072) (1080, 3042) (data (packed_ramp 3317760))).
Proof.
  apply (modern_unpack_two_per_three (model_of_height 1080) (packed_ramp 3317760) 1080
           (1080, 3072) (1080, 3042)).
  - reflexivity.
  - vm_compute. reflexivity.
  - left. reflexivity.
  - rewrite packed_ramp_size by lia. reflexivity.
  - apply ramp_bytes.
Defined.

Lemma version_unknown (height : Z) :
  ~ In height known_heights -> RPICAM2DNG.version height = 6.
Proof.
  intros Hk. unfold RPICAM2DNG.version.
  repeat match goal with
         | |- context [Z.eqb height ?c] =>
             destruct (Z.eqb_spec height c) as [->|_];
             [exfalso; apply Hk; simpl; tauto|]
         end.
  reflexivity.
Qed.

(** C10.  For a declared height that is none of the six of the table the
    version stays at its initial 6, so the lookup answers the geometry of
    the 3040-row sensor and the modern branch runs: the unpacker does to
    the buffer what it does under height 3040, and a buffer of that
    sensor's packed size is unpacked without any error. *)
Theorem unknown_height_falls_back_to_3040
    (model : BaseCameraModel) (img : ndarray) (height : Z) :
  nd_dtype img = uint8 ->
  rawValue0 (model_tags model) ImageLength = Ok height ->
  ~ In height known_heights ->
  RPICAM2DNG.version height = RPICAM2DNG.version 3040
  /\ RPICAM2DNG.geometry (RPICAM2DNG.version height)
     = Ok ((3040, 6112), (3040, 6084))
  /\ (RPICAM2DNG.version height <? 4) = false
  /\ RPICAM2DNG.__unpack_pixels__ model img
     = RPICAM2DNG.unpack_with 6 (3040, 6112) (3040, 6084) img
  /\ (nd_size img = 3040 * 6112 -> Forall (in_dtype uint8) (data img) ->
      RPICAM2DNG.__unpack_pixels__ model img
      = Ok (mk_ndarray uint16 [3040; 4056]
              (concat (map modern_row
                 (cropped_rows (3040, 6112) (3040, 6084) (data img)))))).
Proof.
  intros Hd Hh Hk.
  pose proof (version_unknown height Hk) as Hv.
  rewrite (unpack_pixels_uint8 model img height Hd Hh), Hv.
  repeat split.
  intros Hsz Hb. cbn [RPICAM2DNG.geometry]. rewrite bind_Ok. cbn [fst snd].
  rewrite (unpack_with_modern 6 3040 6112 3040 6084 2028) by (assumption || lia).
  reflexivity.
Qed.

Lemma unknown_height_falls_back_to_3040_witness :
  RPICAM2DNG.version 1000 = RPICAM2DNG.version 3040
  /\ RPICAM2DNG.geometry (RPICAM2DNG.version 1000)
     = Ok ((3040, 6112), (3040, 6084))
  /\ (RPICAM2DNG.version 1000 <? 4) = false
  /\ RPICAM2DNG.__unpack_pixels__ (model_of_height 1000) (packed_ramp 18580480)
     = RPICAM2DNG.unpack_with 6 (3040, 6112) (3040, 6084) (packed_ramp 18580480)
  /\ (nd_size (packed_ramp 18580480) = 3040 * 6112 ->
      Forall (in_dtype uint8) (data (packed_ramp 18580480)) ->
      RPICAM2DNG.__unpack_pixels__ (model_of_height 1000) (packed_ramp 18580480)
      = Ok (mk_ndarray uint16 [3040; 4056]
              (concat (map modern_row
                 (cropped_rows (3040, 6112) (3040, 6084) (data (packed_ramp 18580480))))))).
Proof.
  apply (unknown_height_falls_back_to_3040 (model_of_height 1000) (packed_ramp 18580480) 1000).
  - reflexivity.
  - vm_compute. reflexivity.
  - intros [H|[H|[H|[H|[H|[H|[]]]]]]]; discriminate H.
Defined.

(** ** The already unpacked input *)

(** C6.  An input whose dtype is not uint8 is handed back unchanged by the
    [RPICAM2DNG] unpacker (no tag is read, nothing can raise), and the data
    condition of the class answers with a warning and no error; the choice
    is made on the dtype alone: a uint8 input draws no warning. *)
Theorem rpicam_unpacked_input_passes_through
    (model : BaseCameraModel) (img : ndarray) (w : World) :
  nd_dtype img <> uint8 ->
  RPICAM2DNG.__unpack_pixels__ model img = Ok img
  /\ RPICAM2DNG.__data_condition__ img w
     = (Ok tt, mk_World (files w)
                 (warnings w ++ ["RAW Data is not in correct format. Already unpacked? "]))
  /\ forall packed, nd_dtype packed = uint8 ->
       RPICAM2DNG.__data_condition__ packed w = (Ok tt, w).
Proof.
  intros Hd. unfold RPICAM2DNG.__unpack_pixels__, RPICAM2DNG.__data_condition__.
  rewrite !bool_decide_eq_true_2 by exact Hd.
  repeat split.
  intros packed Hp. rewrite bool_decide_eq_false_2; [reflexivity|].
  intros Hne. apply Hne. exact Hp.
Qed.

Lemma rpicam_unpacked_input_passes_through_witness :
  RPICAM2DNG.__unpack_pixels__ (model_of_height 760) sample_frame = Ok sample_frame
  /\ RPICAM2DNG.__data_condition__ sample_frame empty_world
     = (Ok tt, mk_World (files empty_world)
                 (warnings empty_world
                  ++ ["RAW Data is not in correct format. Already unpacked? "]))
  /\ forall packed, nd_dtype packed = uint8 ->
       RPICAM2DNG.__data_condition__ packed empty_world = (Ok tt, empty_world).
Proof.
  apply (rpicam_unpacked_input_passes_through (model_of_height 760) sample_frame empty_world).
  discriminate.
Defined.

(** ** The filter hook *)

(** C5, as stated: whenever the filter answers an array and [__filter__]
    lets it through, the array has the shape and the numeric range of the
    frame.  It fails on a frame of signed samples, which the [RPICAM2DNG]
    data condition and unpacker let through, with a filter that answers
    unsigned samples. *)
Lemma filter_range_counterexample :
  ~ (forall (frame : ndarray) (f : ndarray -> result pyobj) (p : ndarray),
       f frame = Ok (PyArray p) ->
       DNGBASE.__filter__ frame (Some f) = Ok p ->
       shape p = shape frame /\ same_range p frame).
Proof.
  intros H.
  destruct (H signed_frame to_unsigned (astype uint16 signed_frame)
              eq_refl eq_refl) as [_ [Hmin _]].
  vm_compute in Hmin. discriminate Hmin.
Qed.

(** C5, amended.  With no filter the frame goes on unchanged.  With a
    filter, the answer is checked as soon as the filter returns: it goes on
    exactly when it is an array of the frame's shape whose dtype is uint16;
    any other answer raises ([TypeError] for what is no array, [ValueError]
    for a wrong shape or dtype) and an exception of the filter propagates.
    For a uint16 frame, the only kind the base converter admits, uint16 is
    the dtype of the frame. *)
Theorem filter_checks_shape_and_uint16
    (frame : ndarray) (f : ndarray -> result pyobj) :
  DNGBASE.__filter__ frame None = Ok frame
  /\ (forall p, DNGBASE.__filter__ frame (Some f) = Ok p <->
        f frame = Ok (PyArray p) /\ shape p = shape frame /\ nd_dtype p = uint16)
  /\ (forall p, f frame = Ok (PyArray p) -> shape p <> shape frame ->
        DNGBASE.__filter__ frame (Some f)
        = Raise (ValueError "return array does not have the same shape!"))
  /\ (forall p, f frame = Ok (PyArray p) -> shape p = shape frame ->
        nd_dtype p <> uint16 ->
        DNGBASE.__filter__ frame (Some f)
        = Raise (ValueError "array data type is invalid!"))
  /\ (forall o, f frame = Ok o -> (forall p, o <> PyArray p) ->
        DNGBASE.__filter__ frame (Some f)
        = Raise (TypeError "return value is not a valid numpy array!"))
  /\ (forall e, f frame = Raise e -> DNGBASE.__filter__ frame (Some f) = Raise e)
  /\ (nd_dtype frame = uint16 ->
      forall p, DNGBASE.__filter__ frame (Some f) = Ok p <->
        f frame = Ok (PyArray p) /\ shape p = shape frame /\
        nd_dtype p = nd_dtype frame).
Proof.
  assert (Hiff : forall p, DNGBASE.__filter__ frame (Some f) = Ok p <->
             f frame = Ok (PyArray p) /\ shape p = shape frame /\ nd_dtype p = uint16).
  { intros p. unfold DNGBASE.__filter__.
    destruct (f frame) as [[q| |repr]|e]; simpl; try (split; [discriminate | intros [? _]; discriminate]).
    repeat case_bool_decide; split; intros Hx; try discriminate.
    - destruct Hx as [[= ->] [? _]]. contradiction.
    - destruct Hx as [[= ->] [_ ?]]. contradiction.
    - injection Hx as ->. split; [reflexivity|]. split.
      + destruct (decide (shape p = shape frame)); [assumption | contradiction].
      + destruct (decide (nd_dtype p = uint16)); [assumption | contradiction].
    - destruct Hx as [[= ->] _]. reflexivity. }
  split; [reflexivity|]. split; [exact Hiff|].
  split; [|split; [|split; [|split]]].
  - intros p Hf Hs. unfold DNGBASE.__filter__. rewrite Hf. simpl.
    now rewrite bool_decide_eq_true_2.
  - intros p Hf Hs Hd. unfold DNGBASE.__filter__. rewrite Hf. simpl.
    rewrite bool_decide_eq_false_2 by (intros Hne; apply Hne; exact Hs).
    now rewrite bool_decide_eq_true_2.
  - intros o Hf Ho. unfold DNGBASE.__filter__. rewrite Hf. simpl.
    destruct o; [exfalso; eapply Ho; reflexivity | reflexivity | reflexivity].
  - intros e Hf. unfold DNGBASE.__filter__. now rewrite Hf.
  - intros Hd p. rewrite Hd. apply Hiff.
Qed.

Example signed_frame_reaches_the_filter :
  RPICAM2DNG.__unpack_pixels__ (model_of_height 760) signed_frame = Ok signed_frame
  /\ (RPICAM2DNG.__data_condition__ signed_frame empty_world).1 = Ok tt
  /\ DNGBASE.__filter__ signed_frame (Some to_unsigned)
     = Ok (mk_ndarray uint16 [1; 2] [65535; 5]).
Proof. vm_compute. repeat split. Qed.

(** ** What [convert] leaves behind *)

Lemma write_whole_buffer (p : string) (buf : list Z) (w : World) :
  file_write p buf (open_wb p w) = mk_World (<[p := buf]> (files w)) (warnings w).
Proof.
  unfold file_write, open_wb. cbn [files warnings].
  rewrite lookup_insert_eq. cbn [default]. rewrite insert_insert_eq. reflexivity.
Qed.

(** C4, as stated: [convert] never touches a file and what it answers is
    the buffer.  It fails as soon as a file name is given. *)
Lemma convert_writes_file_counterexample :
  ~ (forall (M : Imports) (cls : DNGBASE.overridable) (s : DNGBASE.self)
            (image : ndarray) (filename : string) (w : World),
       files (DNGBASE.convert M cls s image filename w).2 = files w /\
       forall c, (DNGBASE.convert M cls s image filename w).1 = Ok c ->
                 exists buf, c = Buffer buf).
Proof.
  intros H.
  destruct (H sample_imports DNGBASE.methods sample_converter sample_frame "frame"
              empty_world) as [_ Hc].
  destruct (Hc (OutputDNG "/tmp/frame.dng")) as [buf Hbuf].
  - vm_compute. reflexivity.
  - discriminate Hbuf.
Qed.

Example convert_writes_file_run :
  (DNGBASE.convert sample_imports DNGBASE.methods sample_converter sample_frame "frame"
     empty_world).1 = Ok (OutputDNG "/tmp/frame.dng")
  /\ files (DNGBASE.convert sample_imports DNGBASE.methods sample_converter sample_frame
              "frame" empty_world).2 !! "/tmp/frame.dng"
     = Some (repeat 0 (Z.to_nat 134) ++ [2; 1; 4; 3]).
Proof. vm_compute. split; reflexivity. Qed.

(** C4, amended.  Once the buffer is produced, [convert] with an empty
    file name answers the buffer and leaves the files alone; with a file
    name it appends [.dng] to a name that lacks it, joins the name to the
    configured path, writes the whole buffer there and answers that path. *)
Theorem convert_answers_buffer_or_writes_it
    (M : Imports) (cls : DNGBASE.overridable) (s : DNGBASE.self) (tgs : DNGTags)
    (image : ndarray) (filename : string) (w w1 : World) (buf : list Z) :
  DNGBASE.tags s = Some tgs ->
  DNGBASE.data_condition cls image w = (Ok tt, w1) ->
  DNGBASE.buffer_of M cls s tgs image = Ok buf ->
  (filename = "" ->
   DNGBASE.convert M cls s image filename w = (Ok (Buffer buf), w1))
  /\ (filename <> "" -> forall pth, DNGBASE.path s = Some pth ->
      DNGBASE.convert M cls s image filename w
      = (Ok (OutputDNG (output_name M pth filename)),
         mk_World (<[output_name M pth filename := buf]> (files w1)) (warnings w1))).
Proof.
  intros Ht Hd Hb. unfold DNGBASE.convert. rewrite Ht, Hd, Hb. split.
  - intros ->. reflexivity.
  - intros Hne pth Hp. rewrite Hp.
    destruct filename as [|c rest]; [contradiction|].
    cbn [String.length Nat.ltb Nat.leb]. unfold output_name.
    destruct (endswith (String c rest) ".dng"); cbn [negb];
      rewrite write_whole_buffer; reflexivity.
Qed.

Lemma convert_answers_buffer_or_writes_it_witness :
  ("frame" = "" ->
   DNGBASE.convert sample_imports DNGBASE.methods sample_converter sample_frame "frame"
     empty_world
   = (Ok (Buffer (repeat 0 (Z.to_nat 134) ++ [2; 1; 4; 3])), empty_world))
  /\ ("frame" <> "" -> forall pth, DNGBASE.path sample_converter = Some pth ->
      DNGBASE.convert sample_imports DNGBASE.methods sample_converter sample_frame "frame"
        empty_world
      = (Ok (OutputDNG (output_name sample_imports pth "frame")),
         mk_World (<[output_name sample_imports pth "frame"
                     := repeat 0 (Z.to_nat 134) ++ [2; 1; 4; 3]]> (files empty_world))
           (warnings empty_world))).
Proof.
  apply (convert_answers_buffer_or_writes_it sample_imports DNGBASE.methods
           sample_converter sample_tags sample_frame "frame" empty_world empty_world
           (repeat 0 (Z.to_nat 134) ++ [2; 1; 4; 3])).
  - reflexivity.
  - reflexivity.
  - vm_compute. reflexivity.
Defined.

Lemma data_condition_keeps_files (model : BaseCameraModel) (cls : DNGBASE.overridable)
    (image : ndarray) (w : World) :
  In cls [DNGBASE.methods; RPICAM2DNG.methods model] ->
  files (DNGBASE.data_condition cls image w).2 = files w.
Proof.
  intros [<-|[<-|[]]]; cbn [DNGBASE.data_condition DNGBASE.methods RPICAM2DNG.methods].
  - unfold DNGBASE.__data_condition__. case_bool_decide; reflexivity.
  - unfold RPICAM2DNG.__data_condition__. case_bool_decide; reflexivity.
Qed.

(** C7.  For the base converter and for [RPICAM2DNG]: a call of [convert]
    that raises leaves every file as it was, whichever stage raised (no
    options, data condition, unpacking, filter, processing).  If a call
    changed the files at all, the buffer had been produced in full, the
    call answered the output path, and the one file written holds exactly
    that buffer. *)
Theorem failed_conversion_writes_no_file
    (M : Imports) (model : BaseCameraModel) (cls : DNGBASE.overridable)
    (s : DNGBASE.self) (image : ndarray) (filename : string) (w : World) :
  In cls [DNGBASE.methods; RPICAM2DNG.methods model] ->
  (forall e, (DNGBASE.convert M cls s image filename w).1 = Raise e ->
     files (DNGBASE.convert M cls s image filename w).2 = files w)
  /\ (files (DNGBASE.convert M cls s image filename w).2 <> files w ->
      exists tgs buf out,
        DNGBASE.tags s = Some tgs /\
        DNGBASE.buffer_of M cls s tgs image = Ok buf /\
        (DNGBASE.convert M cls s image filename w).1 = Ok (OutputDNG out) /\
        files (DNGBASE.convert M cls s image filename w).2 = <[out := buf]> (files w)).
Proof.
  intros Hcls.
  pose proof (data_condition_keeps_files model cls image w Hcls) as Hdc.
  unfold DNGBASE.convert.
  destruct (DNGBASE.tags s) as [tgs|]; [|split; [reflexivity | intros Hne; now elim Hne]].
  destruct (DNGBASE.data_condition cls image w) as [[[]|e0] w1]; cbn [snd] in Hdc;
    [|split; [intros; exact Hdc | intros Hne; now elim Hne]].
  destruct (DNGBASE.buffer_of M cls s tgs image) as [buf|e1] eqn:Hbuf;
    [|split; [intros; exact Hdc | intros Hne; now elim Hne]].
  destruct (0 <? String.length filename)%nat;
    [|split; [intros; exact Hdc | intros Hne; now elim Hne]].
  destruct (DNGBASE.path s) as [pth|];
    [|split; [intros; exact Hdc | intros Hne; now elim Hne]].
  rewrite write_whole_buffer. cbn [fst snd files]. split; [discriminate|].
  intros _. eexists tgs, buf, _. rewrite Hdc. repeat split. exact Hbuf.
Qed.

Lemma failed_conversion_writes_no_file_witness :
  (forall e,
     (DNGBASE.convert sample_imports DNGBASE.methods sample_converter
        (small_packed 1 2 [1; 2]) "frame.dng" empty_world).1 = Raise e ->
     files (DNGBASE.convert sample_imports DNGBASE.methods sample_converter
              (small_packed 1 2 [1; 2]) "frame.dng" empty_world).2 = files empty_world)
  /\ (files (DNGBASE.convert sample_imports DNGBASE.methods sample_converter
               (small_packed 1 2 [1; 2]) "frame.dng" empty_world).2 <> files empty_world ->
      exists tgs buf out,
        DNGBASE.tags sample_converter = Some tgs /\
        DNGBASE.buffer_of sample_imports DNGBASE.methods sample_converter tgs
          (small_packed 1 2 [1; 2]) = Ok buf /\
        (DNGBASE.convert sample_imports DNGBASE.methods sample_converter
           (small_packed 1 2 [1; 2]) "frame.dng" empty_world).1 = Ok (OutputDNG out) /\
        files (DNGBASE.convert sample_imports DNGBASE.methods sample_converter
                 (small_packed 1 2 [1; 2]) "frame.dng" empty_world).2
        = <[out := buf]> (files empty_world)).
Proof.
  apply (failed_conversion_writes_no_file sample_imports (model_of_height 760)
           DNGBASE.methods sample_converter (small_packed 1 2 [1; 2]) "frame.dng"
           empty_world).
  left. reflexivity.
Defined.

Example failed_conversion_run :
  DNGBASE.convert sample_imports DNGBASE.methods sample_converter
    (small_packed 1 2 [1; 2]) "frame.dng" empty_world
  = (Raise (Exception "RAW Data is not in correct format. Must be uint16_t Numpy Array. "),
     empty_world).
Proof. vm_compute. reflexivity. Qed.

(** ** The strip of [__process__] *)

Lemma item_bytes_uint8 (bo : byteorder) (v : Z) :
  item_bytes bo uint8 (cast uint8 v) = [v mod 256].
Proof.
  unfold item_bytes, cast. simpl is_signed. simpl andb. cbv iota zeta.
  change (2 ^ (8 * itemsize uint8)) with 256.
  change (Z.to_nat (itemsize uint8)) with 1%nat. cbn [le_bytes].
  rewrite !Z.mod_mod by lia. destruct bo; reflexivity.
Qed.

Lemma item_bytes_uint16 (bo : byteorder) (v : Z) :
  in_dtype uint16 v ->
  item_bytes bo uint16 v
  = match bo with
    | LittleEndian => [v mod 256; v / 256]
    | BigEndian => [v / 256; v mod 256]
    end.
Proof.
  unfold in_dtype, dtype_min, dtype_max, item_bytes. simpl is_signed. cbv iota.
  change (2 ^ (8 * itemsize uint16)) with 65536.
  change (Z.to_nat (itemsize uint16)) with 2%nat. intros Hv. cbn [le_bytes].
  rewrite (Z.mod_small v 65536) by lia.
  rewrite (Z.mod_small (v / 256) 256)
    by (split; [apply Z.div_pos; lia | apply Z.div_lt_upper_bound; lia]).
  destruct bo; reflexivity.
Qed.

Lemma tobytes16_samples (bo : byteorder) (l : list Z) :
  Forall (in_dtype uint16) l ->
  flat_map (item_bytes bo uint16) l = flat_map (sample_bytes16 bo) l.
Proof.
  induction 1 as [|v l Hv Hl IH]; [reflexivity|].
  cbn [flat_map]. rewrite IH, item_bytes_uint16 by exact Hv. reflexivity.
Qed.

Lemma from_bytes16_tobytes (bo : byteorder) (l : list Z) :
  Forall (in_dtype uint16) l ->
  from_bytes16 bo (flat_map (item_bytes bo uint16) l) = l.
Proof.
  intros Hl. rewrite tobytes16_samples by exact Hl.
  induction l as [|v l IH]; [reflexivity|].
  apply Forall_cons in Hl. destruct Hl as [_ Hl].
  cbn [flat_map]. unfold sample_bytes16 at 1.
  destruct bo; cbn [app from_bytes16]; rewrite (IH Hl); f_equal;
    pose proof (Z.div_mod v 256); lia.
Qed.

(** C8.  Without compression, at depth 8 the strip is the frame cast to
    uint8 and read as bytes, one byte for each sample, its low eight bits;
    at depth 16 the strip is the frame read as bytes, two bytes for each
    sample in the byte order of the machine, from which the samples read
    back unchanged.  Neither strip goes through a packer. *)
Theorem byte_aligned_depths_are_reinterpreted
    (M : Imports) (frame : ndarray) (width length_ : Z) :
  nd_dtype frame = uint16 ->
  Forall (in_dtype uint16) (data frame) ->
  DNGBASE.strip M frame width length_ 8 false
    = Ok (Some (tobytes (native M) (astype uint8 frame)))
  /\ tobytes (native M) (astype uint8 frame) = map (fun v => v mod 256) (data frame)
  /\ DNGBASE.strip M frame width length_ 16 false
    = Ok (Some (tobytes (native M) frame))
  /\ tobytes (native M) frame
     = flat_map (sample_bytes16 (native M)) (data frame)
  /\ from_bytes16 (native M) (tobytes (native M) frame) = data frame.
Proof.
  intros Hd Hv. split; [reflexivity|]. split; [|split; [reflexivity|]].
  - unfold tobytes, astype. cbn [nd_dtype data].
    induction (data frame) as [|v l IH]; [reflexivity|].
    cbn [map flat_map]. rewrite item_bytes_uint8, IH by (now inversion Hv). reflexivity.
  - unfold tobytes. rewrite Hd.
    split; [apply tobytes16_samples | apply from_bytes16_tobytes]; exact Hv.
Qed.

Lemma byte_aligned_depths_are_reinterpreted_witness :
  DNGBASE.strip sample_imports sample_frame 2 1 8 false
    = Ok (Some (tobytes (native sample_imports) (astype uint8 sample_frame)))
  /\ tobytes (native sample_imports) (astype uint8 sample_frame)
     = map (fun v => v mod 256) (data sample_frame)
  /\ DNGBASE.strip sample_imports sample_frame 2 1 16 false
    = Ok (Some (tobytes (native sample_imports) sample_frame))
  /\ tobytes (native sample_imports) sample_frame
     = flat_map (sample_bytes16 (native sample_imports)) (data sample_frame)
  /\ from_bytes16 (native sample_imports) (tobytes (native sample_imports) sample_frame)
     = data sample_frame.
Proof.
  apply (byte_aligned_depths_are_reinterpreted sample_imports sample_frame 2 1).
  - reflexivity.
  - repeat constructor; vm_compute; intros H; discriminate H.
Defined.

Example strip_depths_run :
  DNGBASE.strip sample_imports sample_frame 2 1 8 false = Ok (Some [2; 4])
  /\ DNGBASE.strip sample_imports sample_frame 2 1 16 false = Ok (Some [2; 1; 4; 3]).
Proof. vm_compute. split; reflexivity. Qed.



Example process_depth_9_run :
  DNGBASE.__process__ sample_imports sample_frame
    (tags_of [(ImageWidth, [2]); (ImageLength, [1]); (BitsPerSample, [9])]) false
  = Raise (UnboundLocalError "tile").
Proof. vm_compute. reflexivity. Qed.

(** ** The unpackers run on small geometries *)

Example unpack_legacy_small :
  RPICAM2DNG.unpack_with 1 (2, 12) (2, 10)
    (small_packed 2 12 [1; 2; 3; 4; 228; 5; 6; 7; 8; 27; 0; 0;
                        255; 0; 255; 0; 255; 9; 9; 9; 9; 0; 0; 0])
  = Ok (mk_ndarray uint16 [2; 8]
          [4; 9; 14; 19; 23; 26; 29; 32;
           1023; 3; 1023; 3; 36; 36; 36; 36]).
Proof. vm_compute. reflexivity. Qed.

Example unpack_modern_small :
  RPICAM2DNG.unpack_with 4 (2, 8) (2, 6)
    (small_packed 2 8 [1; 2; 0x34; 0xAB; 0xCD; 0xEF; 0; 0;
                       255; 0; 0x0F; 0; 255; 0xF0; 0; 0])
  = Ok (mk_ndarray uint16 [2; 4]
          [0x014; 0x023; 0xABF; 0xCDE;
           0xFFF; 0x000; 0x000; 0xFFF]).
Proof. vm_compute. reflexivity. Qed.

Example cropped_rows_small :
  cropped_rows (2, 4) (1, 3) [1; 2; 3; 4; 5; 6; 7; 8] = [[1; 2; 3]].
Proof. reflexivity. Qed.

Example legacy_row_small :
  legacy_row [1; 2; 3; 4; 228; 5; 6; 7; 8; 27] = [4; 9; 14; 19; 23; 26; 29; 32].
Proof. reflexivity. Qed.

Example modern_row_small :
  modern_row [1; 2; 0x34; 0xAB; 0xCD; 0xEF] = [0x014; 0x023; 0xABF; 0xCDE].
Proof. reflexivity. Qed.

(** ** Further properties of the converters *)

Lemma tags_condition_ok_iff (tgs : DNGTags) :
  DNGBASE.__tags_condition__ tgs = Ok tt <->
  is_Some (get tgs ImageWidth) /\ is_Some (get tgs ImageLength) /\
  is_Some (get tgs BitsPerSample).
Proof.
  unfold DNGBASE.__tags_condition__, DNGBASE.py_not.
  destruct (get tgs ImageWidth), (get tgs ImageLength), (get tgs BitsPerSample);
    split; intros H; try discriminate H; try reflexivity;
    repeat split; eauto;
    destruct H as (H1 & H2 & H3);
    try (destruct H1; discriminate); try (destruct H2; discriminate);
    try (destruct H3; discriminate).
Qed.

(** X1.  The three [options] methods succeed exactly when the tag set
    they install (the argument for [DNGBASE], the model's for [CAM2DNG] and
    [PICAM2DNG]) holds all three mandatory tags.  On success the converter
    holds that tag set, the path ([""] for [PICAM2DNG]) and the compress
    flag, and keeps its filter and its model; on failure it is unchanged.
    After a success none of the three reads of [__process__] can fail for a
    missing tag. *)
Theorem options_succeed_iff_mandatory_tags_present
    (tgs : DNGTags) (pth : string) (cmp : bool) (s : DNGBASE.self) (c : CAM2DNG.self) :
  ((DNGBASE.options tgs pth cmp s).1 = Ok tt <-> DNGBASE.__tags_condition__ tgs = Ok tt)
  /\ (DNGBASE.__tags_condition__ tgs = Ok tt <->
      is_Some (get tgs ImageWidth) /\ is_Some (get tgs ImageLength) /\
      is_Some (get tgs BitsPerSample))
  /\ (DNGBASE.__tags_condition__ tgs = Ok tt ->
      (DNGBASE.options tgs pth cmp s).2
      = DNGBASE.mk_self (Some cmp) (Some pth) (Some tgs) (DNGBASE.filter s)
      /\ forall t, In t [ImageWidth; ImageLength; BitsPerSample] ->
           rawValue0 tgs t = Raise (IndexError "list index out of range")
           \/ exists v, rawValue0 tgs t = Ok v)
  /\ (DNGBASE.__tags_condition__ tgs <> Ok tt -> (DNGBASE.options tgs pth cmp s).2 = s)
  /\ CAM2DNG.options pth cmp c
     = (let r := DNGBASE.options (model_tags (CAM2DNG.model c)) pth cmp (CAM2DNG.base c) in
        (r.1, match r.1 with
              | Ok _ => CAM2DNG.mk_self r.2 (CAM2DNG.model c)
              | Raise _ => c
              end))
  /\ PICAM2DNG.options cmp c = CAM2DNG.options "" cmp c.
Proof.
  split; [|split; [apply tags_condition_ok_iff|split; [|split; [|split]]]].
  - unfold DNGBASE.options. destruct (DNGBASE.__tags_condition__ tgs) as [[]|e];
      split; intros H; try reflexivity; discriminate H.
  - intros Hok. unfold DNGBASE.options. rewrite Hok. split; [reflexivity|].
    apply tags_condition_ok_iff in Hok. destruct Hok as (Hw & Hl & Hb).
    intros t [<-|[<-|[<-|[]]]]; unfold rawValue0;
      [destruct Hw as [tag ->] | destruct Hl as [tag ->] | destruct Hb as [tag ->]];
      (destruct (rawValue tag) as [|v ?]; [left; reflexivity | right; exists v; reflexivity]).
  - intros Hne. unfold DNGBASE.options.
    destruct (DNGBASE.__tags_condition__ tgs) as [[]|e]; [now elim Hne | reflexivity].
  - unfold CAM2DNG.options, DNGBASE.options.
    destruct (DNGBASE.__tags_condition__ (model_tags (CAM2DNG.model c))) as [[]|e];
      reflexivity.
  - reflexivity.
Qed.

Lemma item_bytes_length (bo : byteorder) (d : dtype) (v : Z) :
  Z.of_nat (length (item_bytes bo d v)) = itemsize d.
Proof.
  unfold item_bytes.
  assert (H : forall n x, length (le_bytes n x) = n).
  { induction n as [|n IH]; intros x; simpl; [reflexivity | now rewrite IH]. }
  destruct bo; [|rewrite List.length_rev]; rewrite H; destruct d; reflexivity.
Qed.

Lemma tobytes_length (bo : byteorder) (a : ndarray) :
  Z.of_nat (length (tobytes bo a)) = itemsize (nd_dtype a) * nd_size a.
Proof.
  unfold tobytes, nd_size. induction (data a) as [|v l IH]; [simpl; lia|].
  cbn [flat_map]. rewrite length_app, Nat2Z.inj_add, IH, item_bytes_length.
  cbn [length]. lia.
Qed.

(** X2.  The length of the uncompressed strip for the byte-aligned
    depths, whatever the dtype of the frame: at depth 8 the frame is cast,
    one byte for each sample; at depth 16 the frame is not cast, so the
    strip has [itemsize] bytes for each sample (two for a uint16 frame). *)
Theorem byte_aligned_strip_length
    (M : Imports) (frame : ndarray) (width length_ : Z) :
  (exists tile, DNGBASE.strip M frame width length_ 8 false = Ok (Some tile)
                /\ Z.of_nat (length tile) = nd_size frame)
  /\ (exists tile, DNGBASE.strip M frame width length_ 16 false = Ok (Some tile)
                   /\ Z.of_nat (length tile) = itemsize (nd_dtype frame) * nd_size frame)
  /\ (nd_dtype frame = uint16 ->
      exists tile, DNGBASE.strip M frame width length_ 16 false = Ok (Some tile)
                   /\ Z.of_nat (length tile) = 2 * nd_size frame).
Proof.
  split; [|split].
  - eexists. split; [reflexivity|]. rewrite tobytes_length.
    unfold nd_size, astype. cbn [nd_dtype data itemsize]. rewrite List.length_map. lia.
  - eexists. split; [reflexivity|]. apply tobytes_length.
  - intros Hd. eexists. split; [reflexivity|]. rewrite tobytes_length, Hd. reflexivity.
Qed.

Example wide_frame_strip_run :
  DNGBASE.strip sample_imports wide_frame 2 1 16 false
  = Ok (Some [0; 0; 1; 0; 7; 0; 0; 0])
  /\ DNGBASE.strip sample_imports wide_frame 2 1 8 false = Ok (Some [0; 7]).
Proof. vm_compute. split; reflexivity. Qed.

Lemma convert_warnings_of_data_condition
    (M : Imports) (cls : DNGBASE.overridable) (s : DNGBASE.self) (image : ndarray)
    (filename : string) (w : World) :
  warnings (DNGBASE.convert M cls s image filename w).2
  = match DNGBASE.tags s with
    | None => warnings w
    | Some _ => warnings (DNGBASE.data_condition cls image w).2
    end.
Proof.
  unfold DNGBASE.convert.
  destruct (DNGBASE.tags s) as [tgs|]; [|reflexivity].
  destruct (DNGBASE.data_condition cls image w) as [[[]|e] w1]; [|reflexivity].
  destruct (DNGBASE.buffer_of M cls s tgs image); [|reflexivity].
  destruct (0 <? String.length filename)%nat; [|reflexivity].
  destruct (DNGBASE.path s); reflexivity.
Qed.

(** X3.  Warnings of [convert].  The base converter never issues one.
    [RPICAM2DNG] issues exactly one, the "already unpacked" warning, when
    options are set and the image is not uint8, and none otherwise; this
    holds whether the conversion then succeeds or raises. *)
Theorem convert_warnings
    (M : Imports) (s : DNGBASE.self) (c : CAM2DNG.self) (image : ndarray)
    (filename : string) (w : World) :
  warnings (DNGBASE.convert M DNGBASE.methods s image filename w).2 = warnings w
  /\ warnings (RPICAM2DNG.convert M c image filename w).2
     = warnings w ++
       (if decide (is_Some (DNGBASE.tags (CAM2DNG.base c)) /\ nd_dtype image <> uint8)
        then [unpacked_warning] else []).
Proof.
  split.
  - rewrite convert_warnings_of_data_condition.
    destruct (DNGBASE.tags s); [|reflexivity].
    cbn [DNGBASE.data_condition DNGBASE.methods]. unfold DNGBASE.__data_condition__.
    case_bool_decide; reflexivity.
  - unfold RPICAM2DNG.convert. rewrite convert_warnings_of_data_condition.
    destruct (DNGBASE.tags (CAM2DNG.base c)) as [tgs|].
    + cbn [DNGBASE.data_condition RPICAM2DNG.methods].
      unfold RPICAM2DNG.__data_condition__. case_bool_decide as Hd.
      * rewrite decide_True by (split; [eauto | exact Hd]). reflexivity.
      * rewrite decide_False by (intros [_ Hne]; contradiction).
        now rewrite app_nil_r.
    + rewrite decide_False by (intros [[? Hs] _]; discriminate Hs).
      now rewrite app_nil_r.
Qed.

Lemma string_length_app (s t : string) :
  String.length (s +:+ t) = (String.length s + String.length t)%nat.
Proof. induction s as [|c s IH]; simpl; [reflexivity | now rewrite IH]. Qed.

Lemma substring_whole (t : string) : String.substring 0 (String.length t) t = t.
Proof. induction t as [|c t IH]; simpl; [reflexivity | now rewrite IH]. Qed.

Lemma substring_app_r (s t : string) :
  String.substring (String.length s) (String.length t) (s +:+ t) = t.
Proof. induction s as [|c s IH]; simpl; [apply substring_whole | exact IH]. Qed.

Lemma endswith_app (s t : string) : endswith (s +:+ t) t = true.
Proof.
  unfold endswith. rewrite string_length_app.
  replace (String.length s + String.length t - String.length t)%nat
    with (String.length s) by lia.
  rewrite substring_app_r, String.eqb_refl, andb_true_r.
  apply Nat.leb_le. lia.
Qed.

(** X4.  The name of the file [convert] writes.  Whenever [convert]
    answers an output path, a file name was given and a path configured,
    and the answer is [os.path.join] of that path and a name that ends in
    [.dng]: the given name itself when it already ends so, otherwise the
    given name with [.dng] appended, never appended twice. *)
Theorem convert_output_name_ends_in_dng
    (M : Imports) (cls : DNGBASE.overridable) (s : DNGBASE.self) (image : ndarray)
    (filename : string) (w : World) (out : string) :
  (DNGBASE.convert M cls s image filename w).1 = Ok (OutputDNG out) ->
  filename <> ""
  /\ exists pth name,
       DNGBASE.path s = Some pth /\ out = path_join M pth name /\
       endswith name ".dng" = true /\
       (endswith filename ".dng" = true /\ name = filename
        \/ endswith filename ".dng" = false /\ name = filename +:+ ".dng").
Proof.
  unfold DNGBASE.convert.
  destruct (DNGBASE.tags s) as [tgs|]; [|discriminate].
  destruct (DNGBASE.data_condition cls image w) as [[[]|e] w1]; [|discriminate].
  destruct (DNGBASE.buffer_of M cls s tgs image) as [buf|e]; [|discriminate].
  destruct filename as [|ch rest]; [discriminate|].
  cbn [String.length Nat.ltb Nat.leb].
  destruct (DNGBASE.path s) as [pth|]; [|discriminate].
  cbn [fst]. intros [= <-]. split; [discriminate|].
  exists pth. destruct (endswith (String ch rest) ".dng") eqn:He; cbn [negb].
  - exists (String ch rest). repeat split; try assumption. left. split; reflexivity.
  - exists (String ch rest +:+ ".dng"). repeat split.
    + apply endswith_app.
    + right. split; reflexivity.
Qed.

Lemma convert_output_name_ends_in_dng_witness :
  "frame" <> ""
  /\ exists pth name,
       DNGBASE.path sample_converter = Some pth /\
       "/tmp/frame.dng" = path_join sample_imports pth name /\
       endswith name ".dng" = true /\
       (endswith "frame" ".dng" = true /\ name = "frame"
        \/ endswith "frame" ".dng" = false /\ name = "frame" +:+ ".dng").
Proof.
  apply (convert_output_name_ends_in_dng sample_imports DNGBASE.methods sample_converter
           sample_frame "frame" empty_world "/tmp/frame.dng").
  vm_compute. reflexivity.
Defined.

Example output_names_run :
  output_name sample_imports "/tmp" "frame" = "/tmp/frame.dng"
  /\ output_name sample_imports "/tmp" "frame.dng" = "/tmp/frame.dng"
  /\ output_name sample_imports "/tmp/" "frame.DNG" = "/tmp/frame.DNG.dng".
Proof. vm_compute. repeat split. Qed.

(** X5.  An image that is already uint16: [RPICAM2DNG.convert] answers
    what the base converter answers for the same settings, success or
    exception alike, and leaves the same files; the two differ only in the
    warning. *)
Theorem rpicam_agrees_with_base_on_uint16
    (M : Imports) (c : CAM2DNG.self) (image : ndarray) (filename : string) (w : World) :
  nd_dtype image = uint16 ->
  (RPICAM2DNG.convert M c image filename w).1
  = (DNGBASE.convert M DNGBASE.methods (CAM2DNG.base c) image filename w).1
  /\ files (RPICAM2DNG.convert M c image filename w).2
     = files (DNGBASE.convert M DNGBASE.methods (CAM2DNG.base c) image filename w).2.
Proof.
  intros Hd. unfold RPICAM2DNG.convert, DNGBASE.convert.
  destruct (DNGBASE.tags (CAM2DNG.base c)) as [tgs|]; [|split; reflexivity].
  cbn [DNGBASE.data_condition DNGBASE.methods RPICAM2DNG.methods].
  unfold DNGBASE.__data_condition__, RPICAM2DNG.__data_condition__.
  rewrite bool_decide_eq_true_2 by (rewrite Hd; discriminate).
  rewrite bool_decide_eq_false_2 by (intros Hne; apply Hne; exact Hd).
  assert (Hb : DNGBASE.buffer_of M (RPICAM2DNG.methods (CAM2DNG.model c))
                 (CAM2DNG.base c) tgs image
               = DNGBASE.buffer_of M DNGBASE.methods (CAM2DNG.base c) tgs image).
  { unfold DNGBASE.buffer_of.
    cbn [DNGBASE.unpack_pixels DNGBASE.methods RPICAM2DNG.methods].
    unfold RPICAM2DNG.__unpack_pixels__, DNGBASE.__unpack_pixels__.
    rewrite bool_decide_eq_true_2 by (rewrite Hd; discriminate). reflexivity. }
  rewrite Hb.
  destruct (DNGBASE.buffer_of M DNGBASE.methods (CAM2DNG.base c) tgs image);
    [|split; reflexivity].
  destruct (0 <? String.length filename)%nat; [|split; reflexivity].
  destruct (DNGBASE.path (CAM2DNG.base c)); split; reflexivity.
Qed.

Lemma rpicam_agrees_with_base_on_uint16_witness :
  (RPICAM2DNG.convert sample_imports
     (CAM2DNG.mk_self sample_converter (model_of_height 760)) sample_frame "frame"
     empty_world).1
  = (DNGBASE.convert sample_imports DNGBASE.methods
       (CAM2DNG.base (CAM2DNG.mk_self sample_converter (model_of_height 760)))
       sample_frame "frame" empty_world).1
  /\ files (RPICAM2DNG.convert sample_imports
              (CAM2DNG.mk_self sample_converter (model_of_height 760)) sample_frame
              "frame" empty_world).2
     = files (DNGBASE.convert sample_imports DNGBASE.methods
                (CAM2DNG.base (CAM2DNG.mk_self sample_converter (model_of_height 760)))
                sample_frame "frame" empty_world).2.
Proof.
  apply (rpicam_agrees_with_base_on_uint16 sample_imports
           (CAM2DNG.mk_self sample_converter (model_of_height 760)) sample_frame "frame"
           empty_world).
  reflexivity.
Defined.

(** ** Samples and bytes *)

Lemma lor_shiftl_add (a x n : Z) :
  0 <= n -> 0 <= x < 2 ^ n -> Z.lor (Z.shiftl a n) x = a * 2 ^ n + x.
Proof.
  intros Hn Hx.
  assert (Hd : Z.land (Z.shiftl a n) x = 0).
  { apply Z.bits_inj'. intros i Hi. rewrite Z.land_spec, Z.bits_0.
    destruct (Z.lt_ge_cases i n) as [Hlt|Hge].
    - rewrite Z.shiftl_spec_low by lia. reflexivity.
    - rewrite <- (Z.mod_small x (2 ^ n)) by lia.
      rewrite Z.mod_pow2_bits_high by lia. apply andb_false_r. }
  rewrite <- Z.lxor_lor, <- Z.add_nocarry_lxor by exact Hd.
  now rewrite Z.shiftl_mul_pow2.
Qed.

Lemma land_3 (y : Z) : Z.land y 3 = y mod 4.
Proof. change 3 with (Z.ones 2). now rewrite Z.land_ones. Qed.

Lemma land_15 (y : Z) : Z.land y 15 = y mod 16.
Proof. change 15 with (Z.ones 4). now rewrite Z.land_ones. Qed.

(** The four samples of a legacy group in arithmetic. *)
Lemma legacy_sample_arith (c c4 : Z) :
  legacy_sample 0 (Z.shiftl c 2) (Z.shiftl c4 2) = 4 * c + c4 mod 4
  /\ legacy_sample 1 (Z.shiftl c 2) (Z.shiftl c4 2) = 4 * c + (c4 / 4) mod 4
  /\ legacy_sample 2 (Z.shiftl c 2) (Z.shiftl c4 2) = 4 * c + (c4 / 16) mod 4
  /\ legacy_sample 3 (Z.shiftl c 2) (Z.shiftl c4 2) = 4 * c + (c4 / 64) mod 4.
Proof.
  repeat split; rewrite legacy_sample_bits by lia; rewrite land_3;
    rewrite Z.shiftr_div_pow2 by lia;
    (rewrite lor_shiftl_add by (try lia; apply Z.mod_pos_bound; lia));
    repeat match goal with
           | |- context [2 ^ ?e] =>
               let v := eval vm_compute in (2 ^ e) in change (2 ^ e) with v
           end;
    rewrite ?Z.div_1_r; lia.
Qed.

Lemma modern_sample_arith (b0 b1 b2 : Z) :
  modern_even b0 b2 = 16 * b0 + b2 mod 16
  /\ modern_odd b1 b2 = 16 * b1 + (b2 / 16) mod 16.
Proof.
  unfold modern_even, modern_odd. rewrite !land_15.
  rewrite Z.shiftr_div_pow2 by lia.
  rewrite !lor_shiftl_add by (try lia; apply Z.mod_pos_bound; lia).
  change (2 ^ 4) with 16. lia.
Qed.

Ltac split_bytes :=
  repeat match goal with
         | H : Forall _ (_ :: _) |- _ => apply Forall_cons in H; destruct H as [? H]
         end.

(** Unpacking a row of whole legacy groups, then packing it again. *)
Lemma legacy_row_facts (n : nat) (r : list Z) :
  length r = (5 * n)%nat -> Forall (in_dtype uint8) r ->
  length (legacy_row r) = (4 * n)%nat
  /\ Forall (fun v => 0 <= v < 2 ^ 10) (legacy_row r)
  /\ legacy_pack_row (legacy_row r) = r.
Proof.
  revert r; induction n as [|n IH]; intros r Hlen Hr.
  - destruct r; [repeat split; constructor | simpl in Hlen; lia].
  - destruct r as [|c0 [|c1 [|c2 [|c3 [|c4 t]]]]]; simpl in Hlen; try lia.
    split_bytes. repeat match goal with H : in_dtype uint8 _ |- _ => apply in_uint8 in H end.
    destruct (IH t ltac:(lia) Hr) as (IHl & IHr & IHp).
    cbn [legacy_row].
    destruct (legacy_sample_arith c0 c4) as (-> & _ & _ & _).
    destruct (legacy_sample_arith c1 c4) as (_ & -> & _ & _).
    destruct (legacy_sample_arith c2 c4) as (_ & _ & -> & _).
    destruct (legacy_sample_arith c3 c4) as (_ & _ & _ & ->).
    change (2 ^ 10) with 1024 in *.
    split; [|split].
    + cbn [length]. lia.
    + repeat (constructor; [Z.div_mod_to_equations; lia|]). exact IHr.
    + cbn [legacy_pack_row]. rewrite IHp.
      repeat (apply (f_equal2 cons); [Z.div_mod_to_equations; lia|]). reflexivity.
Qed.

(** Packing a row of 10-bit samples, then unpacking it. *)
Lemma legacy_pack_row_facts (n : nat) (s : list Z) :
  length s = (4 * n)%nat -> Forall (fun v => 0 <= v < 2 ^ 10) s ->
  length (legacy_pack_row s) = (5 * n)%nat
  /\ Forall (in_dtype uint8) (legacy_pack_row s)
  /\ legacy_row (legacy_pack_row s) = s.
Proof.
  revert s; induction n as [|n IH]; intros s Hlen Hs.
  - destruct s; [repeat split; constructor | simpl in Hlen; lia].
  - destruct s as [|s0 [|s1 [|s2 [|s3 t]]]]; simpl in Hlen; try lia.
    split_bytes. change (2 ^ 10) with 1024 in *.
    destruct (IH t ltac:(lia) Hs) as (IHl & IHb & IHp).
    cbn [legacy_pack_row].
    set (low := s0 mod 4 + 4 * (s1 mod 4) + 16 * (s2 mod 4) + 64 * (s3 mod 4)).
    split; [|split].
    + cbn [length]. lia.
    + repeat (constructor; [apply in_uint8; subst low; Z.div_mod_to_equations; lia|]).
      exact IHb.
    + cbn [legacy_row]. rewrite IHp.
      destruct (legacy_sample_arith (s0 / 4) low) as (-> & _ & _ & _).
      destruct (legacy_sample_arith (s1 / 4) low) as (_ & -> & _ & _).
      destruct (legacy_sample_arith (s2 / 4) low) as (_ & _ & -> & _).
      destruct (legacy_sample_arith (s3 / 4) low) as (_ & _ & _ & ->).
      repeat (apply (f_equal2 cons); [subst low; Z.div_mod_to_equations; lia|]). reflexivity.
Qed.

Lemma modern_row_facts (n : nat) (r : list Z) :
  length r = (3 * n)%nat -> Forall (in_dtype uint8) r ->
  length (modern_row r) = (2 * n)%nat
  /\ Forall (fun v => 0 <= v < 2 ^ 12) (modern_row r)
  /\ modern_pack_row (modern_row r) = r.
Proof.
  revert r; induction n as [|n IH]; intros r Hlen Hr.
  - destruct r; [repeat split; constructor | simpl in Hlen; lia].
  - destruct r as [|b0 [|b1 [|b2 t]]]; simpl in Hlen; try lia.
    split_bytes. repeat match goal with H : in_dtype uint8 _ |- _ => apply in_uint8 in H end.
    destruct (IH t ltac:(lia) Hr) as (IHl & IHr & IHp).
    cbn [modern_row].
    destruct (modern_sample_arith b0 b1 b2) as (-> & ->).
    change (2 ^ 12) with 4096 in *.
    split; [|split].
    + cbn [length]. lia.
    + repeat (constructor; [Z.div_mod_to_equations; lia|]). exact IHr.
    + cbn [modern_pack_row]. rewrite IHp.
      repeat (apply (f_equal2 cons); [Z.div_mod_to_equations; lia|]). reflexivity.
Qed.

Lemma modern_pack_row_facts (n : nat) (s : list Z) :
  length s = (2 * n)%nat -> Forall (fun v => 0 <= v < 2 ^ 12) s ->
  length (modern_pack_row s) = (3 * n)%nat
  /\ Forall (in_dtype uint8) (modern_pack_row s)
  /\ modern_row (modern_pack_row s) = s.
Proof.
  revert s; induction n as [|n IH]; intros s Hlen Hs.
  - destruct s; [repeat split; constructor | simpl in Hlen; lia].
  - destruct s as [|e [|o t]]; simpl in Hlen; try lia.
    split_bytes. change (2 ^ 12) with 4096 in *.
    destruct (IH t ltac:(lia) Hs) as (IHl & IHb & IHp).
    cbn [modern_pack_row].
    split; [|split].
    + cbn [length]. lia.
    + repeat (constructor; [apply in_uint8; Z.div_mod_to_equations; lia|]). exact IHb.
    + cbn [modern_row]. rewrite IHp.
      destruct (modern_sample_arith (e / 16) (o / 16) (e mod 16 + 16 * (o mod 16)))
        as (-> & ->).
      repeat (apply (f_equal2 cons); [Z.div_mod_to_equations; lia|]). reflexivity.
Qed.

(** ** The unpacker on every declared height *)

Lemma height_cases (h : Z) :
  exists R C cr cc n,
    RPICAM2DNG.geometry (RPICAM2DNG.version h) = Ok ((R, C), (cr, cc))
    /\ packed_shape h = (R, C) /\ crop_shape h = (cr, cc)
    /\ 0 <= cr <= R /\ 0 <= cc <= C /\ 0 <= n /\ 0 < C
    /\ (RPICAM2DNG.version h < 4 /\ cc = 5 * n /\ unpacked_width h = 4 * n
        /\ scheme_row h = legacy_row /\ scheme_pack_row h = legacy_pack_row
        /\ scheme_bits h = 10
        \/ 4 <= RPICAM2DNG.version h /\ cc = 3 * n /\ unpacked_width h = 2 * n
           /\ scheme_row h = modern_row /\ scheme_pack_row h = modern_pack_row
           /\ scheme_bits h = 12).
Proof.
  unfold unpacked_width, scheme_row, scheme_pack_row, scheme_bits.
  unfold packed_shape, crop_shape, RPICAM2DNG.version.
  destruct (h =? 1080);
    [exists 1080, 3072, 1080, 3042, 1014; cbn;
     repeat (split; [first [reflexivity | lia]|]); right; repeat split; first [reflexivity | lia]|].
  destruct (h =? 1520);
    [exists 1520, 3072, 1520, 3042, 1014; cbn;
     repeat (split; [first [reflexivity | lia]|]); right; repeat split; first [reflexivity | lia]|].
  destruct (h =? 3040);
    [exists 3040, 6112, 3040, 6084, 2028; cbn;
     repeat (split; [first [reflexivity | lia]|]); right; repeat split; first [reflexivity | lia]|].
  destruct (h =? 760);
    [exists 768, 1280, 760, 1265, 253; cbn;
     repeat (split; [first [reflexivity | lia]|]); left; repeat split; first [reflexivity | lia]|].
  destruct (h =? 2464);
    [exists 2480, 4128, 2464, 4100, 820; cbn;
     repeat (split; [first [reflexivity | lia]|]); left; repeat split; first [reflexivity | lia]|].
  destruct (h =? 1944);
    [exists 1952, 3264, 1944, 3240, 648; cbn;
     repeat (split; [first [reflexivity | lia]|]); left; repeat split; first [reflexivity | lia]|].
  exists 3040, 6112, 3040, 6084, 2028; cbn;
    repeat (split; [first [reflexivity | lia]|]); right; repeat split; first [reflexivity | lia].
Qed.

Lemma concat_length_uniform {A : Type} (c : nat) (ls : list (list A)) :
  Forall (fun r => length r = c) ls -> length (concat ls) = (length ls * c)%nat.
Proof.
  induction 1 as [|r ls Hr _ IH]; [reflexivity|].
  cbn [concat length]. rewrite length_app, IH, Hr. lia.
Qed.

Lemma chunks_concat {A : Type} (c : nat) (ls : list (list A)) :
  Forall (fun r => length r = c) ls -> chunks (length ls) c (concat ls) = ls.
Proof.
  induction 1 as [|r ls Hr _ IH]; [reflexivity|].
  cbn [concat length chunks].
  rewrite take_app_length' by (symmetry; exact Hr).
  rewrite drop_app_length' by (symmetry; exact Hr).
  now rewrite IH.
Qed.

(** What the unpacker answers for a uint8 buffer of the packed size, and
    what its rows are like. *)
Lemma unpack_pixels_rows (model : BaseCameraModel) (img : ndarray) (h : Z) :
  nd_dtype img = uint8 ->
  rawValue0 (model_tags model) ImageLength = Ok h ->
  nd_size img = (packed_shape h).1 * (packed_shape h).2 ->
  Forall (in_dtype uint8) (data img) ->
  RPICAM2DNG.__unpack_pixels__ model img
  = Ok (mk_ndarray uint16 [(crop_shape h).1; unpacked_width h]
          (concat (map (scheme_row h)
             (cropped_rows (packed_shape h) (crop_shape h) (data img)))))
  /\ length (cropped_rows (packed_shape h) (crop_shape h) (data img))
     = Z.to_nat (crop_shape h).1
  /\ 0 <= (crop_shape h).1 /\ 0 <= unpacked_width h
  /\ Forall (fun r => length (scheme_row h r) = Z.to_nat (unpacked_width h)
                      /\ Forall (fun v => 0 <= v < 2 ^ scheme_bits h) (scheme_row h r)
                      /\ scheme_pack_row h (scheme_row h r) = r)
       (cropped_rows (packed_shape h) (crop_shape h) (data img)).
Proof.
  intros Hd Hh Hsz Hb.
  destruct (height_cases h)
    as (R & C & cr & cc & n & Hg & Hp & Hc & Hr & Hcc & Hn & HC & Hs).
  rewrite Hp, Hc in *. cbn [fst snd] in *.
  destruct (cropped_rows_facts (in_dtype uint8) R C cr cc (data img) Hr Hcc Hsz Hb)
    as (Hcount & Hlen & Hbytes).
  rewrite (unpack_pixels_uint8 model img h Hd Hh), Hg, bind_Ok. cbn [fst snd].
  destruct Hs as [(Hv & Hcn & -> & -> & -> & ->)|(Hv & Hcn & -> & -> & -> & ->)].
  - rewrite (unpack_with_legacy _ R C cr cc n) by assumption.
    split; [reflexivity|]. split; [exact Hcount|]. split; [lia|]. split; [lia|].
    rewrite Forall_forall in Hlen, Hbytes. apply Forall_forall. intros r Hin.
    destruct (legacy_row_facts (Z.to_nat n) r) as (H1 & H2 & H3);
      [rewrite (Hlen r Hin); lia | exact (Hbytes r Hin) |].
    repeat split; [lia | exact H2 | exact H3].
  - rewrite (unpack_with_modern _ R C cr cc n) by assumption.
    split; [reflexivity|]. split; [exact Hcount|]. split; [lia|]. split; [lia|].
    rewrite Forall_forall in Hlen, Hbytes. apply Forall_forall. intros r Hin.
    destruct (modern_row_facts (Z.to_nat n) r) as (H1 & H2 & H3);
      [rewrite (Hlen r Hin); lia | exact (Hbytes r Hin) |].
    repeat split; [lia | exact H2 | exact H3].
Qed.

Lemma unpack_pixels_output (model : BaseCameraModel) (img : ndarray) (h : Z) :
  nd_dtype img = uint8 ->
  rawValue0 (model_tags model) ImageLength = Ok h ->
  nd_size img = (packed_shape h).1 * (packed_shape h).2 ->
  Forall (in_dtype uint8) (data img) ->
  exists out,
    RPICAM2DNG.__unpack_pixels__ model img = Ok out
    /\ nd_dtype out = uint16
    /\ shape out = [(crop_shape h).1; unpacked_width h]
    /\ nd_size out = (crop_shape h).1 * unpacked_width h
    /\ Forall (fun v => 0 <= v < 2 ^ scheme_bits h) (data out)
    /\ map (scheme_pack_row h)
         (chunks (Z.to_nat (crop_shape h).1) (Z.to_nat (unpacked_width h)) (data out))
       = cropped_rows (packed_shape h) (crop_shape h) (data img).
Proof.
  intros Hd Hh Hsz Hb.
  destruct (unpack_pixels_rows model img h Hd Hh Hsz Hb)
    as (Hout & Hcount & Hcr & Hw & Hrows).
  set (rs := cropped_rows (packed_shape h) (crop_shape h) (data img)) in *.
  assert (Hlens : Forall (fun r => length r = Z.to_nat (unpacked_width h))
                    (map (scheme_row h) rs)).
  { apply Forall_map. eapply List.Forall_impl; [|exact Hrows]. intros r (Hl & _). exact Hl. }
  eexists. split; [exact Hout|]. cbn [nd_dtype shape data].
  split; [reflexivity|]. split; [reflexivity|]. split; [|split].
  - unfold nd_size. cbn [data].
    rewrite (concat_length_uniform _ _ Hlens), List.length_map, Hcount. lia.
  - apply Forall_concat. apply Forall_map.
    eapply List.Forall_impl; [|exact Hrows]. intros r (_ & Hr & _). exact Hr.
  - rewrite <- Hcount, <- (List.length_map (scheme_row h) rs).
    rewrite (chunks_concat _ _ Hlens), List.map_map.
    rewrite <- (List.map_id rs) at 2. apply List.map_ext_Forall.
    eapply List.Forall_impl; [|exact Hrows]. intros r (_ & _ & Hp). exact Hp.
Qed.

(** X6.  The resolution of the unpacked frame.  For each of the six
    sensors of the table, a uint8 buffer of the packed size unpacks to a
    uint16 array whose shape is the declared height by the width the
    comment beside the entry gives (2592x1944, 3280x2464, 1012x760,
    2028x1080, 2028x1520, 4056x3040), with one sample for each pixel. *)
Theorem unpacked_frame_has_sensor_resolution
    (model : BaseCameraModel) (img : ndarray) (sn : sensor) :
  In sn sensors ->
  nd_dtype img = uint8 ->
  rawValue0 (model_tags model) ImageLength = Ok (sensor_height sn) ->
  nd_size img = packed_bytes sn ->
  Forall (in_dtype uint8) (data img) ->
  exists out,
    RPICAM2DNG.__unpack_pixels__ model img = Ok out
    /\ nd_dtype out = uint16
    /\ shape out = [sensor_height sn; sensor_width sn]
    /\ nd_size out = sensor_height sn * sensor_width sn.
Proof.
  intros Hin Hd Hh Hsz Hb.
  assert (Hs : packed_bytes sn
               = (packed_shape (sensor_height sn)).1 * (packed_shape (sensor_height sn)).2
               /\ (crop_shape (sensor_height sn)).1 = sensor_height sn
               /\ unpacked_width (sensor_height sn) = sensor_width sn).
  { destruct Hin as [<-|[<-|[<-|[<-|[<-|[<-|[]]]]]]]; vm_compute; repeat split. }
  destruct Hs as (Hs1 & Hs2 & Hs3). rewrite Hs1 in Hsz.
  destruct (unpack_pixels_output model img (sensor_height sn) Hd Hh Hsz Hb)
    as (out & Hout & Hdt & Hsh & Hn & _).
  rewrite Hs2, Hs3 in *. exists out. repeat split; assumption.
Qed.

Lemma unpacked_frame_has_sensor_resolution_witness :
  exists out,
    RPICAM2DNG.__unpack_pixels__ (model_of_height 760) (packed_ramp 983040) = Ok out
    /\ nd_dtype out = uint16
    /\ shape out = [sensor_height (mk_sensor 760 (768 * 1280) 1012 10);
                    sensor_width (mk_sensor 760 (768 * 1280) 1012 10)]
    /\ nd_size out = sensor_height (mk_sensor 760 (768 * 1280) 1012 10)
                     * sensor_width (mk_sensor 760 (768 * 1280) 1012 10).
Proof.
  apply (unpacked_frame_has_sensor_resolution (model_of_height 760) (packed_ramp 983040)
           (mk_sensor 760 (768 * 1280) 1012 10)).
  - right. right. left. reflexivity.
  - reflexivity.
  - vm_compute. reflexivity.
  - rewrite packed_ramp_size by lia. reflexivity.
  - apply ramp_bytes.
Defined.

(** X7.  The depth of the unpacked samples.  Whatever the declared
    height, every sample the unpacker answers for a uint8 buffer of the
    packed size fits the depth of the branch taken: 10 bits on the legacy
    branch (heights 1944, 2464, 760), 12 bits on the modern branch (every
    other height). *)
Theorem unpacked_samples_fit_scheme_depth
    (model : BaseCameraModel) (img : ndarray) (h : Z) :
  nd_dtype img = uint8 ->
  rawValue0 (model_tags model) ImageLength = Ok h ->
  nd_size img = (packed_shape h).1 * (packed_shape h).2 ->
  Forall (in_dtype uint8) (data img) ->
  exists out,
    RPICAM2DNG.__unpack_pixels__ model img = Ok out
    /\ Forall (fun v => 0 <= v < 2 ^ scheme_bits h) (data out)
    /\ scheme_bits h = (if bool_decide (In h [1944; 2464; 760]) then 10 else 12).
Proof.
  intros Hd Hh Hsz Hb.
  destruct (unpack_pixels_output model img h Hd Hh Hsz Hb)
    as (out & Hout & _ & _ & _ & Hr & _).
  exists out. split; [exact Hout|]. split; [exact Hr|].
  unfold scheme_bits, RPICAM2DNG.version.
  case_bool_decide as Hin.
  - destruct Hin as [<-|[<-|[<-|[]]]]; reflexivity.
  - repeat match goal with
           | |- context [Z.eqb h ?c] => destruct (Z.eqb_spec h c) as [->|_]
           end; try reflexivity; exfalso; apply Hin; simpl; tauto.
Qed.

Lemma unpacked_samples_fit_scheme_depth_witness :
  exists out,
    RPICAM2DNG.__unpack_pixels__ (model_of_height 760) (packed_ramp 983040) = Ok out
    /\ Forall (fun v => 0 <= v < 2 ^ scheme_bits 760) (data out)
    /\ scheme_bits 760 = (if bool_decide (In 760 [1944; 2464; 760]) then 10 else 12).
Proof.
  apply (unpacked_samples_fit_scheme_depth (model_of_height 760) (packed_ramp 983040) 760).
  - reflexivity.
  - vm_compute. reflexivity.
  - rewrite packed_ramp_size by lia. reflexivity.
  - apply ramp_bytes.
Defined.

(** X8.  Unpacking loses nothing of the cropped region.  Whatever the
    declared height, the bytes of the cropped region of a uint8 buffer of
    the packed size are recovered from the unpacked frame: cutting the
    frame into its rows and packing each row in the layout of the branch
    gives back the cropped rows of the buffer. *)
Theorem unpacked_frame_determines_cropped_bytes
    (model : BaseCameraModel) (img : ndarray) (h : Z) :
  nd_dtype img = uint8 ->
  rawValue0 (model_tags model) ImageLength = Ok h ->
  nd_size img = (packed_shape h).1 * (packed_shape h).2 ->
  Forall (in_dtype uint8) (data img) ->
  exists out,
    RPICAM2DNG.__unpack_pixels__ model img = Ok out
    /\ shape out = [(crop_shape h).1; unpacked_width h]
    /\ map (scheme_pack_row h)
         (chunks (Z.to_nat (crop_shape h).1) (Z.to_nat (unpacked_width h)) (data out))
       = map (take (Z.to_nat (crop_shape h).2))
           (take (Z.to_nat (crop_shape h).1)
              (chunks (Z.to_nat (packed_shape h).1) (Z.to_nat (packed_shape h).2)
                 (data img))).
Proof.
  intros Hd Hh Hsz Hb.
  destruct (unpack_pixels_output model img h Hd Hh Hsz Hb)
    as (out & Hout & _ & Hsh & _ & _ & Hp).
  exists out. repeat split; assumption.
Qed.

Lemma unpacked_frame_determines_cropped_bytes_witness :
  exists out,
    RPICAM2DNG.__unpack_pixels__ (model_of_height 1080) (packed_ramp 3317760) = Ok out
    /\ shape out = [(crop_shape 1080).1; unpacked_width 1080]
    /\ map (scheme_pack_row 1080)
         (chunks (Z.to_nat (crop_shape 1080).1) (Z.to_nat (unpacked_width 1080)) (data out))
       = map (take (Z.to_nat (crop_shape 1080).2))
           (take (Z.to_nat (crop_shape 1080).1)
              (chunks (Z.to_nat (packed_shape 1080).1) (Z.to_nat (packed_shape 1080).2)
                 (data (packed_ramp 3317760)))).
Proof.
  apply (unpacked_frame_determines_cropped_bytes (model_of_height 1080)
           (packed_ramp 3317760) 1080).
  - reflexivity.
  - vm_compute. reflexivity.
  - rewrite packed_ramp_size by lia. reflexivity.
  - apply ramp_bytes.
Defined.

Lemma map_id_Forall {A : Type} (f : A -> A) (l : list A) :
  Forall (fun x => f x = x) l -> map f l = l.
Proof. induction 1 as [|x l Hx _ IH]; [reflexivity|]. cbn [map]. now rewrite Hx, IH. Qed.

Lemma cropped_rows_whole (r c : Z) (ls : list (list Z)) :
  0 <= r -> 0 <= c -> length ls = Z.to_nat r ->
  Forall (fun row => length row = Z.to_nat c) ls ->
  cropped_rows (r, c) (r, c) (concat ls) = ls.
Proof.
  intros Hr Hc Hn Hl. unfold cropped_rows. cbn [fst snd].
  rewrite <- Hn, (chunks_concat _ _ Hl), firstn_all.
  apply map_id_Forall.
  eapply List.Forall_impl; [|exact Hl]. intros row Hrow. simpl in Hrow.
  apply take_ge. lia.
Qed.

(** X9.  A packed buffer unpacks to the samples it was packed from
    (legacy branch).  For rows of 10-bit samples, four to a group, the
    buffer that holds each group as five bytes (the high eight bits of the
    four samples, then their low bit pairs in one byte, sample 0 lowest)
    is unpacked by lines 191-197 to exactly those samples. *)
Theorem unpack_inverts_legacy_pack (ver r n : Z) (S : list (list Z)) :
  ver < 4 -> 0 <= r -> 0 <= n -> length S = Z.to_nat r ->
  Forall (fun row => length row = Z.to_nat (4 * n)
                     /\ Forall (fun v => 0 <= v < 2 ^ 10) row) S ->
  RPICAM2DNG.unpack_with ver (r, 5 * n) (r, 5 * n)
    (mk_ndarray uint8 [r; 5 * n] (concat (map legacy_pack_row S)))
  = Ok (mk_ndarray uint16 [r; 4 * n] (concat S)).
Proof.
  intros Hv Hr Hn Hlen HS.
  assert (Hfacts : Forall (fun row => length (legacy_pack_row row) = Z.to_nat (5 * n)
                                      /\ Forall (in_dtype uint8) (legacy_pack_row row)
                                      /\ legacy_row (legacy_pack_row row) = row) S).
  { eapply List.Forall_impl; [|exact HS]. intros row (Hl & Hb).
    destruct (legacy_pack_row_facts (Z.to_nat n) row) as (H1 & H2 & H3);
      [lia | exact Hb |]. repeat split; [lia | exact H2 | exact H3]. }
  assert (Hl5 : Forall (fun row => length row = Z.to_nat (5 * n)) (map legacy_pack_row S)).
  { apply Forall_map. eapply List.Forall_impl; [|exact Hfacts]. intros row (H1 & _). exact H1. }
  rewrite (unpack_with_legacy ver r (5 * n) r (5 * n) n); try lia; try reflexivity.
  - cbn [data]. rewrite cropped_rows_whole by
      (try lia; try exact Hl5; now rewrite List.length_map).
    rewrite List.map_map, (map_id_Forall _ S); [reflexivity|].
    eapply List.Forall_impl; [|exact Hfacts]. intros row (_ & _ & H3). exact H3.
  - unfold nd_size. cbn [data].
    rewrite (concat_length_uniform _ _ Hl5), List.length_map, Hlen. lia.
  - cbn [data]. apply Forall_concat. apply Forall_map.
    eapply List.Forall_impl; [|exact Hfacts]. intros row (_ & H2 & _). exact H2.
Qed.

Lemma unpack_inverts_legacy_pack_witness :
  RPICAM2DNG.unpack_with 1 (2, 5 * 1) (2, 5 * 1)
    (mk_ndarray uint8 [2; 5 * 1] (concat (map legacy_pack_row legacy_samples)))
  = Ok (mk_ndarray uint16 [2; 4 * 1] (concat legacy_samples)).
Proof.
  apply (unpack_inverts_legacy_pack 1 2 1 legacy_samples); try lia; try reflexivity.
  repeat constructor; vm_compute; intros H; discriminate H.
Defined.

(** X10.  A packed buffer unpacks to the samples it was packed from
    (modern branch).  For rows of 12-bit samples, two to a group, the
    buffer that holds each group as three bytes (the high eight bits of the
    two samples, then their low nibbles in one byte, the even sample's
    lowest) is unpacked by lines 191-204 to exactly those samples. *)
Theorem unpack_inverts_modern_pack (ver r n : Z) (S : list (list Z)) :
  4 <= ver -> 0 <= r -> 0 <= n -> length S = Z.to_nat r ->
  Forall (fun row => length row = Z.to_nat (2 * n)
                     /\ Forall (fun v => 0 <= v < 2 ^ 12) row) S ->
  RPICAM2DNG.unpack_with ver (r, 3 * n) (r, 3 * n)
    (mk_ndarray uint8 [r; 3 * n] (concat (map modern_pack_row S)))
  = Ok (mk_ndarray uint16 [r; 2 * n] (concat S)).
Proof.
  intros Hv Hr Hn Hlen HS.
  assert (Hfacts : Forall (fun row => length (modern_pack_row row) = Z.to_nat (3 * n)
                                      /\ Forall (in_dtype uint8) (modern_pack_row row)
                                      /\ modern_row (modern_pack_row row) = row) S).
  { eapply List.Forall_impl; [|exact HS]. intros row (Hl & Hb).
    destruct (modern_pack_row_facts (Z.to_nat n) row) as (H1 & H2 & H3);
      [lia | exact Hb |]. repeat split; [lia | exact H2 | exact H3]. }
  assert (Hl3 : Forall (fun row => length row = Z.to_nat (3 * n)) (map modern_pack_row S)).
  { apply Forall_map. eapply List.Forall_impl; [|exact Hfacts]. intros row (H1 & _). exact H1. }
  rewrite (unpack_with_modern ver r (3 * n) r (3 * n) n); try lia; try reflexivity.
  - cbn [data]. rewrite cropped_rows_whole by
      (try lia; try exact Hl3; now rewrite List.length_map).
    rewrite List.map_map, (map_id_Forall _ S); [reflexivity|].
    eapply List.Forall_impl; [|exact Hfacts]. intros row (_ & _ & H3). exact H3.
  - unfold nd_size. cbn [data].
    rewrite (concat_length_uniform _ _ Hl3), List.length_map, Hlen. lia.
  - cbn [data]. apply Forall_concat. apply Forall_map.
    eapply List.Forall_impl; [|exact Hfacts]. intros row (_ & H2 & _). exact H2.
Qed.

Lemma unpack_inverts_modern_pack_witness :
  RPICAM2DNG.unpack_with 6 (2, 3 * 2) (2, 3 * 2)
    (mk_ndarray uint8 [2; 3 * 2] (concat (map modern_pack_row modern_samples)))
  = Ok (mk_ndarray uint16 [2; 2 * 2] (concat modern_samples)).
Proof.
  apply (unpack_inverts_modern_pack 6 2 2 modern_samples); try lia; try reflexivity.
  repeat constructor; vm_compute; intros H; discriminate H.
Defined.

Example pack_then_unpack_run :
  concat (map legacy_pack_row legacy_samples) = [0; 0; 0; 0; 228; 255; 255; 255; 255; 228]
  /\ RPICAM2DNG.unpack_with 1 (2, 5) (2, 5)
       (mk_ndarray uint8 [2; 5] [0; 0; 0; 0; 228; 255; 255; 255; 255; 228])
     = Ok (mk_ndarray uint16 [2; 4] [0; 1; 2; 3; 1020; 1021; 1022; 1023]).
Proof. vm_compute. split; reflexivity. Qed.

(** X11.  When the unpacker accepts a buffer.  Whatever the declared
    height, the dictionary lookup finds a geometry (no [KeyError]), and a
    uint8 buffer is unpacked exactly when its size is the product of the
    reshape of that geometry; a buffer of any other size makes the reshape
    raise [ValueError]. *)
Theorem unpack_succeeds_iff_packed_size
    (model : BaseCameraModel) (img : ndarray) (h : Z) :
  nd_dtype img = uint8 ->
  rawValue0 (model_tags model) ImageLength = Ok h ->
  Forall (in_dtype uint8) (data img) ->
  (exists g, RPICAM2DNG.geometry (RPICAM2DNG.version h) = Ok g)
  /\ ((exists out, RPICAM2DNG.__unpack_pixels__ model img = Ok out) <->
      nd_size img = (packed_shape h).1 * (packed_shape h).2)
  /\ (nd_size img <> (packed_shape h).1 * (packed_shape h).2 ->
      RPICAM2DNG.__unpack_pixels__ model img
      = Raise (ValueError "cannot reshape array into the requested shape")).
Proof.
  intros Hd Hh Hb.
  assert (Hbad : nd_size img <> (packed_shape h).1 * (packed_shape h).2 ->
                 RPICAM2DNG.__unpack_pixels__ model img
                 = Raise (ValueError "cannot reshape array into the requested shape")).
  { intros Hne.
    destruct (height_cases h)
      as (R & C & cr & cc & n & Hg & Hp & _).
    rewrite Hp in Hne. cbn [fst snd] in Hne.
    rewrite (unpack_pixels_uint8 model img h Hd Hh), Hg, bind_Ok. cbn [fst snd].
    unfold RPICAM2DNG.unpack_with, reshape. cbn [fst snd].
    destruct (Z.eqb_spec (nd_size img) (R * C)) as [He|_]; [contradiction | reflexivity]. }
  split; [|split; [split|exact Hbad]].
  - destruct (height_cases h) as (R & C & cr & cc & n & Hg & _). eauto.
  - intros [out Hout].
    destruct (Z.eq_dec (nd_size img) ((packed_shape h).1 * (packed_shape h).2)) as [He|Hne];
      [exact He|]. rewrite (Hbad Hne) in Hout. discriminate Hout.
  - intros Hsz. destruct (unpack_pixels_output model img h Hd Hh Hsz Hb) as (out & Hout & _).
    eauto.
Qed.

Lemma unpack_succeeds_iff_packed_size_witness :
  (exists g, RPICAM2DNG.geometry (RPICAM2DNG.version 760) = Ok g)
  /\ ((exists out,
         RPICAM2DNG.__unpack_pixels__ (model_of_height 760) (small_packed 1 2 [1; 2])
         = Ok out) <->
      nd_size (small_packed 1 2 [1; 2]) = (packed_shape 760).1 * (packed_shape 760).2)
  /\ (nd_size (small_packed 1 2 [1; 2]) <> (packed_shape 760).1 * (packed_shape 760).2 ->
      RPICAM2DNG.__unpack_pixels__ (model_of_height 760) (small_packed 1 2 [1; 2])
      = Raise (ValueError "cannot reshape array into the requested shape")).
Proof.
  apply (unpack_succeeds_iff_packed_size (model_of_height 760) (small_packed 1 2 [1; 2]) 760).
  - reflexivity.
  - vm_compute. reflexivity.
  - repeat constructor; vm_compute; intros H; discriminate H.
Defined.

Example unpack_wrong_size_run :
  RPICAM2DNG.__unpack_pixels__ (model_of_height 760) (small_packed 1 2 [1; 2])
  = Raise (ValueError "cannot reshape array into the requested shape").
Proof. vm_compute. reflexivity. Qed.

(** Writing a byte outside the crop window of a buffer leaves the cropped
    rows as they were. *)
Lemma cropped_rows_insert_outside {A : Type} (r c cr cc i : nat) (b : A) (l : list A) :
  c <> 0%nat -> (cr <= i / c \/ cc <= i mod c)%nat ->
  map (take cc) (take cr (chunks r c (<[i := b]> l)))
  = map (take cc) (take cr (chunks r c l)).
Proof.
  intros Hc. revert l i cr.
  induction r as [|r IH]; intros l i cr Hout; [reflexivity|].
  destruct cr as [|cr]; [reflexivity|].
  cbn [chunks take map].
  destruct (Nat.lt_ge_cases i c) as [Hlt|Hge].
  - rewrite Nat.div_small, Nat.mod_small in Hout by exact Hlt.
    destruct Hout as [Hout|Hout]; [lia|].
    rewrite take_insert_lt by exact Hlt. rewrite take_insert_ge by exact Hout.
    rewrite drop_insert_lt by exact Hlt. reflexivity.
  - rewrite take_insert_ge by exact Hge. rewrite drop_insert_ge by exact Hge.
    rewrite IH; [reflexivity|].
    replace i with (1 * c + (i - c))%nat in Hout by lia.
    rewrite Nat.div_add_l, (Nat.add_comm (1 * c)), Nat.Div0.mod_add in Hout by exact Hc.
    lia.
Qed.

(** X12.  The padding is never read.  Whatever the declared height,
    overwriting one byte of a uint8 buffer of the packed size that lies
    outside the crop window (in a row at or beyond the cropped height, or
    in a column at or beyond the cropped width) does not change what the
    unpacker answers. *)
Theorem unpacker_ignores_padding
    (model : BaseCameraModel) (img : ndarray) (h i b : Z) :
  nd_dtype img = uint8 ->
  rawValue0 (model_tags model) ImageLength = Ok h ->
  nd_size img = (packed_shape h).1 * (packed_shape h).2 ->
  Forall (in_dtype uint8) (data img) ->
  0 <= b < 256 -> 0 <= i ->
  (crop_shape h).1 <= i / (packed_shape h).2 \/
  (crop_shape h).2 <= i mod (packed_shape h).2 ->
  RPICAM2DNG.__unpack_pixels__ model
    (mk_ndarray uint8 (shape img) (<[Z.to_nat i := b]> (data img)))
  = RPICAM2DNG.__unpack_pixels__ model img.
Proof.
  intros Hd Hh Hsz Hb Hbyte Hi Hout.
  set (img' := mk_ndarray uint8 (shape img) (<[Z.to_nat i := b]> (data img))).
  assert (Hsz' : nd_size img' = (packed_shape h).1 * (packed_shape h).2).
  { unfold nd_size, img'. cbn [data]. rewrite length_insert. exact Hsz. }
  assert (Hb' : Forall (in_dtype uint8) (data img')).
  { unfold img'. cbn [data]. apply Forall_insert; [exact Hb | now apply in_uint8]. }
  destruct (unpack_pixels_rows model img h Hd Hh Hsz Hb) as (-> & _).
  destruct (unpack_pixels_rows model img' h eq_refl Hh Hsz' Hb') as (-> & _).
  do 3 f_equal. unfold img', cropped_rows. cbn [data].
  destruct (height_cases h)
    as (R & C & cr & cc & n & _ & Hp & Hc & Hr & Hcc & _ & HC & _).
  rewrite Hp, Hc in *. cbn [fst snd] in *.
  f_equal. apply cropped_rows_insert_outside; [lia|].
  rewrite <- Z2Nat.inj_div, <- Z2Nat.inj_mod by lia.
  pose proof (Z.div_pos i C Hi HC). pose proof (Z.mod_pos_bound i C HC).
  destruct Hout as [Ho|Ho]; [left | right]; lia.
Qed.

Lemma unpacker_ignores_padding_witness :
  RPICAM2DNG.__unpack_pixels__ (model_of_height 760)
    (mk_ndarray uint8 (shape (packed_ramp 983040))
       (<[Z.to_nat 1265 := 0]> (data (packed_ramp 983040))))
  = RPICAM2DNG.__unpack_pixels__ (model_of_height 760) (packed_ramp 983040).
Proof.
  apply (unpacker_ignores_padding (model_of_height 760) (packed_ramp 983040) 760 1265 0).
  - reflexivity.
  - vm_compute. reflexivity.
  - rewrite packed_ramp_size by lia. reflexivity.
  - apply ramp_bytes.
  - lia.
  - lia.
  - right. vm_compute. discriminate.
Defined.

(** X13.  The base converter takes uint16 images only.  With options
    set, [convert] of an image of any other dtype raises the format
    exception of [__data_condition__] and changes nothing: no warning, no
    file, whatever the filter, the tags and the file name; without options
    the missing-options exception comes first. *)
Theorem base_converter_refuses_other_dtypes
    (M : Imports) (s : DNGBASE.self) (image : ndarray) (filename : string) (w : World) :
  nd_dtype image <> uint16 ->
  DNGBASE.convert M DNGBASE.methods s image filename w
  = (Raise (Exception
       (match DNGBASE.tags s with
        | None => "Options have not been set!"
        | Some _ => "RAW Data is not in correct format. Must be uint16_t Numpy Array. "
        end)), w).
Proof.
  intros Hd. unfold DNGBASE.convert.
  destruct (DNGBASE.tags s); [|reflexivity].
  cbn [DNGBASE.data_condition DNGBASE.methods]. unfold DNGBASE.__data_condition__.
  now rewrite bool_decide_eq_true_2.
Qed.

Lemma base_converter_refuses_other_dtypes_witness :
  DNGBASE.convert sample_imports DNGBASE.methods sample_converter wide_frame "frame"
    empty_world
  = (Raise (Exception
       (match DNGBASE.tags sample_converter with
        | None => "Options have not been set!"
        | Some _ => "RAW Data is not in correct format. Must be uint16_t Numpy Array. "
        end)), empty_world).
Proof.
  apply (base_converter_refuses_other_dtypes sample_imports sample_converter wide_frame
           "frame" empty_world).
  discriminate.
Defined.

(** X14.  The shape of the frame is never checked.  Without compression
    and at depth 8 or 16, [__process__] reads the frame through [tobytes]
    only: two frames with the same dtype and the same samples in C order
    give the same result whatever their shapes, so the number of samples
    is never compared with [ImageWidth] and [ImageLength]. *)
Theorem process_ignores_frame_shape
    (M : Imports) (f1 f2 : ndarray) (tgs : DNGTags) (bpp : Z) :
  rawValue0 tgs BitsPerSample = Ok bpp ->
  In bpp [8; 16] ->
  nd_dtype f1 = nd_dtype f2 ->
  data f1 = data f2 ->
  DNGBASE.__process__ M f1 tgs false = DNGBASE.__process__ M f2 tgs false.
Proof.
  intros Hb Hin Hd Hdata. unfold DNGBASE.__process__. rewrite Hb.
  destruct (rawValue0 tgs ImageWidth) as [width|e]; [|reflexivity].
  destruct (rawValue0 tgs ImageLength) as [length_|e]; [|reflexivity].
  rewrite !bind_Ok.
  assert (Hs : DNGBASE.strip M f1 width length_ bpp false
               = DNGBASE.strip M f2 width length_ bpp false).
  { unfold DNGBASE.strip, tobytes, astype.
    destruct Hin as [<-|[<-|[]]]; cbn [Z.eqb Pos.eqb nd_dtype data];
      rewrite ?Hd, Hdata; reflexivity. }
  rewrite Hs. reflexivity.
Qed.

Lemma process_ignores_frame_shape_witness :
  DNGBASE.__process__ sample_imports sample_frame sample_tags false
  = DNGBASE.__process__ sample_imports (mk_ndarray uint16 [2; 1] [258; 772]) sample_tags
      false.
Proof.
  apply (process_ignores_frame_shape sample_imports sample_frame
           (mk_ndarray uint16 [2; 1] [258; 772]) sample_tags 16).
  - vm_compute. reflexivity.
  - right. left. reflexivity.
  - reflexivity.
  - reflexivity.
Defined.

Example process_sample_count_unchecked_run :
  DNGBASE.__process__ sample_imports (mk_ndarray uint16 [3] [258; 772; 1]) sample_tags false
  = Ok (repeat 0 (Z.to_nat 134) ++ [2; 1; 4; 3; 1; 0]).
Proof. vm_compute. reflexivity. Qed.

(** The two readings of the legacy scheme on the group [0, 0, 0, 0, 228],
    beside lines 191-197 run on that group. *)
Example legacy_readings_run :
  claimed_legacy_row [0; 0; 0; 0; 228] = [1; 2; 3; 0]
  /\ legacy_row [0; 0; 0; 0; 228] = [0; 1; 2; 3]
  /\ RPICAM2DNG.unpack_with 1 (1, 5) (1, 5) (small_packed 1 5 [0; 0; 0; 0; 228])
     = Ok (mk_ndarray uint16 [1; 4] [0; 1; 2; 3]).
Proof. vm_compute. repeat split. Qed.
